(** * Phone Automation Controller: the webhook relay of [backend.py]

    A shallow embedding of the relay core of [backend.py]: the static
    registry [WEBHOOK_CONFIG], the shared counters [system_state] with
    their serialized update [update_state], and the dispatch function
    [trigger_webhook].  Python dictionaries whose key set matters are
    finite maps; the effects of the code (the shared counters, the
    clock, the outbound HTTP call, the logger, raised exceptions) are
    threaded through a small state-and-exception monad. *)

From Stdlib Require Import ZArith.
From stdpp Require Import gmap strings list fin_maps pretty.

Local Set Warnings "-register-all".
Local Open Scope string_scope.
Local Open Scope Z_scope.

(** ** Python values *)

(** The JSON-like Python values that occur in payloads and in the
    dictionaries the relay returns. *)
Inductive pyval : Type :=
  | PNone
  | PBool (b : bool)
  | PInt (n : Z)
  | PStr (s : string)
  | PList (items : list pyval)
  | PDict (items : list (string * pyval)).

(** [str(n)] for a Python [int]: decimal digits, with a leading minus
    sign for negative numbers. *)
Definition str_int (n : Z) : string := pretty n.

(** ** Configuration *)

(** [WEBHOOK_CONFIG]: for each action key, the dictionary
    [{'url': ..., 'description': ...}]. *)
Definition WEBHOOK_CONFIG : gmap string (gmap string string) :=
  {[ "lock_screen" :=
       {[ "url" := "https://trigger.macrodroid.com/44152ed5-575d-4f82-97b1-8ce1f4e9bde5/lock";
          "description" := "Lock the phone screen immediately" ]};
     "block_touch" :=
       {[ "url" := "https://trigger.macrodroid.com/44152ed5-575d-4f82-97b1-8ce1f4e9bde5/block";
          "description" := "Block touch/UI interaction for 10 seconds" ]};
     "open_site1" :=
       {[ "url" := "https://trigger.macrodroid.com/44152ed5-575d-4f82-97b1-8ce1f4e9bde5/site1";
          "description" := "Open Site 1 (e.g., YouTube)" ]};
     "open_site2" :=
       {[ "url" := "https://trigger.macrodroid.com/44152ed5-575d-4f82-97b1-8ce1f4e9bde5/site2";
          "description" := "Open Site 2 (e.g., Twitter)" ]};
     "open_site3" :=
       {[ "url" := "https://trigger.macrodroid.com/44152ed5-575d-4f82-97b1-8ce1f4e9bde5/site3";
          "description" := "Open Site 3 (e.g., Gmail)" ]} ]}.

(** Timeout for webhook HTTP requests (seconds). *)
Definition WEBHOOK_TIMEOUT : Z := 10.

(** ** State management *)

(** The global dictionary [system_state].  Its seven keys are fixed at
    module level and every assignment keeps the type of the value, so it
    is a record with one field per key; [None] is Python's [None]. *)
Record SystemState : Type := {
  last_action : option string;
  last_action_time : option string;
  last_action_status : option string;
  total_requests : Z;
  successful_requests : Z;
  failed_requests : Z;
  backend_start_time : string
}.

(** The value [system_state] is bound to when the module is loaded;
    [start] is [datetime.now().isoformat()] at that moment. *)
Definition initial_system_state (start : string) : SystemState :=
  {| last_action := None;
     last_action_time := None;
     last_action_status := None;
     total_requests := 0;
     successful_requests := 0;
     failed_requests := 0;
     backend_start_time := start |}.

(** Item assignments [system_state[key] = v]. *)
Definition set_last_action (v : option string) (s : SystemState) : SystemState :=
  {| last_action := v;
     last_action_time := last_action_time s;
     last_action_status := last_action_status s;
     total_requests := total_requests s;
     successful_requests := successful_requests s;
     failed_requests := failed_requests s;
     backend_start_time := backend_start_time s |}.

Definition set_last_action_time (v : option string) (s : SystemState) : SystemState :=
  {| last_action := last_action s;
     last_action_time := v;
     last_action_status := last_action_status s;
     total_requests := total_requests s;
     successful_requests := successful_requests s;
     failed_requests := failed_requests s;
     backend_start_time := backend_start_time s |}.

Definition set_last_action_status (v : option string) (s : SystemState) : SystemState :=
  {| last_action := last_action s;
     last_action_time := last_action_time s;
     last_action_status := v;
     total_requests := total_requests s;
     successful_requests := successful_requests s;
     failed_requests := failed_requests s;
     backend_start_time := backend_start_time s |}.

Definition set_total_requests (v : Z) (s : SystemState) : SystemState :=
  {| last_action := last_action s;
     last_action_time := last_action_time s;
     last_action_status := last_action_status s;
     total_requests := v;
     successful_requests := successful_requests s;
     failed_requests := failed_requests s;
     backend_start_time := backend_start_time s |}.

Definition set_successful_requests (v : Z) (s : SystemState) : SystemState :=
  {| last_action := last_action s;
     last_action_time := last_action_time s;
     last_action_status := last_action_status s;
     total_requests := total_requests s;
     successful_requests := v;
     failed_requests := failed_requests s;
     backend_start_time := backend_start_time s |}.

Definition set_failed_requests (v : Z) (s : SystemState) : SystemState :=
  {| last_action := last_action s;
     last_action_time := last_action_time s;
     last_action_status := last_action_status s;
     total_requests := total_requests s;
     successful_requests := successful_requests s;
     failed_requests := v;
     backend_start_time := backend_start_time s |}.

(** ** The outside world *)

(** A raised exception, as far as the handlers of [trigger_webhook] can
    tell exceptions apart: whether it is an instance of
    [requests.exceptions.Timeout], whether it is an instance of
    [requests.exceptions.ConnectionError] (one exception can be both),
    and its text [str(e)].  Everything raised inside the [try] block (by
    [requests.post], by the JSON encoder, by a dictionary lookup) is an
    instance of [Exception]. *)
Record Exception : Type := {
  is_Timeout : bool;
  is_ConnectionError : bool;
  str_e : string
}.

(** [KeyError(key)] for a string key; its text is [repr(key)]. *)
Definition KeyError (key : string) : Exception :=
  {| is_Timeout := false;
     is_ConnectionError := false;
     str_e := "'" ++ key ++ "'" |}.

(** One call [requests.post(url, json=..., timeout=..., headers=...)]. *)
Record Request : Type := {
  method : string;
  url : string;
  json : gmap string pyval;
  timeout : Z;
  headers : gmap string string
}.

(** The response object; only [status_code] is read. *)
Record Response : Type := {
  status_code : Z
}.

(** What the program cannot decide: the text returned by the [n]-th
    call of [datetime.now().isoformat()], and what the [n]-th outbound
    call does, a response or a raised exception. *)
Record Env : Type := {
  clock : nat → string;
  remote : nat → Request → Response + Exception
}.

(** What the program changes: the counters, the number of clock reads,
    the outbound calls issued so far (oldest first) and the log records
    (level and message, oldest first). *)
Record World : Type := {
  system_state : SystemState;
  clock_reads : nat;
  posts : list Request;
  log : list (string * string)
}.

Definition initial_world (start : string) : World :=
  {| system_state := initial_system_state start;
     clock_reads := 0%nat;
     posts := [];
     log := [] |}.

(** ** A state and exception monad *)

Inductive outcome (A : Type) : Type :=
  | Returns (a : A)
  | Raises (e : Exception).
Arguments Returns {A} a.
Arguments Raises {A} e.

Definition M (A : Type) : Type := World → outcome A * World.

#[local] Instance M_ret : MRet M := λ A a w, (Returns a, w).

#[local] Instance M_bind : MBind M := λ A B f m w,
  match m w with
  | (Returns a, w') => f a w'
  | (Raises e, w') => (Raises e, w')
  end.

Definition raise {A : Type} (e : Exception) : M A := λ w, (Raises e, w).

(** [try: body] followed by its [except] clauses: [handler] is the chain
    of clauses, tried in the order in which they are written; the last
    one, [except Exception], takes every exception. *)
Definition try_except {A : Type} (body : M A) (handler : Exception → M A) : M A :=
  λ w, match body w with
       | (Returns a, w') => (Returns a, w')
       | (Raises e, w') => handler e w'
       end.

(** [d[key]] on a dictionary: raises [KeyError] on a missing key. *)
Definition getitem {V : Type} (d : gmap string V) (key : string) : M V :=
  match d !! key with
  | Some v => mret v
  | None => raise (KeyError key)
  end.

(** [key in d]. *)
Definition contains {V : Type} (d : gmap string V) (key : string) : bool :=
  bool_decide (is_Some (d !! key)).

(** An assignment to [system_state]. *)
Definition modify_state (f : SystemState → SystemState) : M unit :=
  λ w, (Returns (),
        {| system_state := f (system_state w);
           clock_reads := clock_reads w;
           posts := posts w;
           log := log w |}).

(** [logger.info(msg)] and [logger.error(msg)]. *)
Definition logger (level msg : string) : M unit :=
  λ w, (Returns (),
        {| system_state := system_state w;
           clock_reads := clock_reads w;
           posts := posts w;
           log := log w ++ [(level, msg)] |}).

Section Relay.

Variable env : Env.

(** [datetime.now().isoformat()]. *)
Definition datetime_now_isoformat : M string :=
  λ w, (Returns (clock env (clock_reads w)),
        {| system_state := system_state w;
           clock_reads := S (clock_reads w);
           posts := posts w;
           log := log w |}).

(** [requests.post]: the call is recorded, then the environment answers
    with a response or raises. *)
Definition requests_post (url : string) (json : gmap string pyval)
    (timeout : Z) (headers : gmap string string) : M Response :=
  λ w,
    let req := {| method := "POST"; url := url; json := json;
                  timeout := timeout; headers := headers |} in
    let w' := {| system_state := system_state w;
                 clock_reads := clock_reads w;
                 posts := posts w ++ [req];
                 log := log w |} in
    match remote env (length (posts w)) req with
    | inl response => (Returns response, w')
    | inr e => (Raises e, w')
    end.

(** [update_state].  The body of [with state_lock:] runs as one step;
    the argument [message] is never read. *)
Definition update_state (action_name status : string) (message : option string) : M unit :=
  modify_state (set_last_action (Some action_name)) ;;
  now ← datetime_now_isoformat ;
  modify_state (set_last_action_time (Some now)) ;;
  modify_state (set_last_action_status (Some status)) ;;
  modify_state (λ s, set_total_requests (total_requests s + 1) s) ;;
  if String.eqb status "success"
  then modify_state (λ s, set_successful_requests (successful_requests s + 1) s)
  else modify_state (λ s, set_failed_requests (failed_requests s + 1) s).

(** ** Webhook forwarding *)

(** [payload if payload else {}]: [None] and the empty dictionary are
    falsy. *)
Definition payload_or_empty (payload : option (gmap string pyval)) : gmap string pyval :=
  match payload with
  | Some d => if bool_decide (d = ∅) then ∅ else d
  | None => ∅
  end.

(** [trigger_webhook]. *)
Definition trigger_webhook (webhook_key : string) (payload : option (gmap string pyval))
    : M (gmap string pyval) :=
  if negb (contains WEBHOOK_CONFIG webhook_key) then
    logger "ERROR" ("Invalid webhook key: " ++ webhook_key) ;;
    timestamp ← datetime_now_isoformat ;
    mret {[ "success" := PBool false;
            "action" := PStr webhook_key;
            "message" := PStr ("Unknown action: " ++ webhook_key);
            "timestamp" := PStr timestamp ]}
  else
    webhook_info ← getitem WEBHOOK_CONFIG webhook_key ;
    webhook_url ← getitem webhook_info "url" ;
    logger "INFO" ("Triggering webhook: " ++ webhook_key) ;;
    logger "INFO" ("URL: " ++ webhook_url) ;;
    try_except
      (response ← requests_post webhook_url (payload_or_empty payload) WEBHOOK_TIMEOUT
                    {[ "Content-Type" := "application/json" ]} ;
       logger "INFO" ("Webhook response status: " ++ str_int (status_code response)) ;;
       if (200 <=? status_code response) && (status_code response <? 300) then
         update_state webhook_key "success" None ;;
         description ← getitem webhook_info "description" ;
         timestamp ← datetime_now_isoformat ;
         mret {[ "success" := PBool true;
                 "action" := PStr webhook_key;
                 "message" := PStr (description ++ " - Command sent successfully");
                 "status_code" := PInt (status_code response);
                 "timestamp" := PStr timestamp ]}
       else
         update_state webhook_key "error" (Some ("HTTP " ++ str_int (status_code response))) ;;
         timestamp ← datetime_now_isoformat ;
         mret {[ "success" := PBool false;
                 "action" := PStr webhook_key;
                 "message" := PStr ("Webhook returned HTTP " ++ str_int (status_code response));
                 "status_code" := PInt (status_code response);
                 "timestamp" := PStr timestamp ]})
      (λ e,
         if is_Timeout e then
           logger "ERROR" ("Webhook timeout for " ++ webhook_key) ;;
           update_state webhook_key "error" (Some "Timeout") ;;
           timestamp ← datetime_now_isoformat ;
           mret {[ "success" := PBool false;
                   "action" := PStr webhook_key;
                   "message" := PStr "Request timed out. Phone may be unreachable.";
                   "timestamp" := PStr timestamp ]}
         else if is_ConnectionError e then
           logger "ERROR" ("Connection error for " ++ webhook_key) ;;
           update_state webhook_key "error" (Some "Connection error") ;;
           timestamp ← datetime_now_isoformat ;
           mret {[ "success" := PBool false;
                   "action" := PStr webhook_key;
                   "message" := PStr "Cannot connect to phone. Check internet connection.";
                   "timestamp" := PStr timestamp ]}
         else
           logger "ERROR" ("Unexpected error for " ++ webhook_key ++ ": " ++ str_e e) ;;
           update_state webhook_key "error" (Some (str_e e)) ;;
           timestamp ← datetime_now_isoformat ;
           mret {[ "success" := PBool false;
                   "action" := PStr webhook_key;
                   "message" := PStr ("Unexpected error: " ++ str_e e);
                   "timestamp" := PStr timestamp ]}).

End Relay.

(** ** Sequences of dispatches *)

(** The world after running the calls [trigger_webhook(key, payload)]
    of [calls] one after the other; the returned dictionaries are
    dropped. *)
Fixpoint dispatch_all (env : Env) (calls : list (string * option (gmap string pyval)))
    (w : World) : World :=
  match calls with
  | [] => w
  | (webhook_key, payload) :: rest =>
      dispatch_all env rest (snd (trigger_webhook env webhook_key payload w))
  end.

(** The world after the calls [update_state(action_name, status, message)]
    of [updates], in the order in which they obtain [state_lock]. *)
Fixpoint update_all (env : Env) (updates : list (string * string * option string))
    (w : World) : World :=
  match updates with
  | [] => w
  | (action_name, status, message) :: rest =>
      update_all env rest (snd (update_state env action_name status message w))
  end.

(** ** Notions used in the statements *)

(** The invariant of the counters. *)
Definition stats_invariant (s : SystemState) : Prop :=
  total_requests s = successful_requests s + failed_requests s.

(** [system_state] after one update with the given action name and
    status, made at time [now]. *)
Definition recorded (action_name status now : string) (s : SystemState) : SystemState :=
  {| last_action := Some action_name;
     last_action_time := Some now;
     last_action_status := Some status;
     total_requests := total_requests s + 1;
     successful_requests :=
       if String.eqb status "success" then successful_requests s + 1
       else successful_requests s;
     failed_requests :=
       if String.eqb status "success" then failed_requests s
       else failed_requests s + 1;
     backend_start_time := backend_start_time s |}.

(** The outbound call [trigger_webhook] makes for a configured URL. *)
Definition webhook_request (webhook_url : string) (payload : option (gmap string pyval))
    : Request :=
  {| method := "POST";
     url := webhook_url;
     json := payload_or_empty payload;
     timeout := WEBHOOK_TIMEOUT;
     headers := {[ "Content-Type" := "application/json" ]} |}.

(** A dictionary of the shape [trigger_webhook] returns: the four keys
    of every result with values of the right type, and [status_code],
    when present, an integer. *)
Definition is_RelayResult (r : gmap string pyval) : Prop :=
  (∃ b, r !! "success" = Some (PBool b)) ∧
  (∃ a, r !! "action" = Some (PStr a)) ∧
  (∃ m, r !! "message" = Some (PStr m)) ∧
  (∃ t, r !! "timestamp" = Some (PStr t)) ∧
  (r !! "status_code" = None ∨ ∃ n, r !! "status_code" = Some (PInt n)).

(** An error is recorded between [w] and [w']: one more request, one
    more failure, no more successes. *)
Definition error_recorded (action_name : string) (w w' : World) : Prop :=
  total_requests (system_state w') = total_requests (system_state w) + 1 ∧
  failed_requests (system_state w') = failed_requests (system_state w) + 1 ∧
  successful_requests (system_state w') = successful_requests (system_state w) ∧
  last_action (system_state w') = Some action_name ∧
  last_action_status (system_state w') = Some "error".

(** A success is recorded between [w] and [w']. *)
Definition success_recorded (action_name : string) (w w' : World) : Prop :=
  total_requests (system_state w') = total_requests (system_state w) + 1 ∧
  successful_requests (system_state w') = successful_requests (system_state w) + 1 ∧
  failed_requests (system_state w') = failed_requests (system_state w) ∧
  last_action (system_state w') = Some action_name ∧
  last_action_status (system_state w') = Some "success".

(** The result of a dispatch that reached the outbound call: the
    dictionary returned, and whether a success was recorded. *)
Inductive relayed (k : string) (info : gmap string string) :
    Response + Exception → gmap string pyval → string → string → Prop :=
  | relayed_2xx response d now :
      info !! "description" = Some d →
      (200 <=? status_code response) && (status_code response <? 300) = true →
      relayed k info (inl response)
        {[ "success" := PBool true;
           "action" := PStr k;
           "message" := PStr (d ++ " - Command sent successfully");
           "status_code" := PInt (status_code response);
           "timestamp" := PStr now ]}
        now "success"
  | relayed_non2xx response now :
      (200 <=? status_code response) && (status_code response <? 300) = false →
      relayed k info (inl response)
        {[ "success" := PBool false;
           "action" := PStr k;
           "message" := PStr ("Webhook returned HTTP " ++ str_int (status_code response));
           "status_code" := PInt (status_code response);
           "timestamp" := PStr now ]}
        now "error"
  | relayed_timeout e now :
      is_Timeout e = true →
      relayed k info (inr e)
        {[ "success" := PBool false;
           "action" := PStr k;
           "message" := PStr "Request timed out. Phone may be unreachable.";
           "timestamp" := PStr now ]}
        now "error"
  | relayed_connection e now :
      is_Timeout e = false →
      is_ConnectionError e = true →
      relayed k info (inr e)
        {[ "success" := PBool false;
           "action" := PStr k;
           "message" := PStr "Cannot connect to phone. Check internet connection.";
           "timestamp" := PStr now ]}
        now "error"
  | relayed_unexpected e now :
      is_Timeout e = false →
      is_ConnectionError e = false →
      relayed k info (inr e)
        {[ "success" := PBool false;
           "action" := PStr k;
           "message" := PStr ("Unexpected error: " ++ str_e e);
           "timestamp" := PStr now ]}
        now "error".

(** ** Sample environments *)

(** The clock shows the number of the read; every outbound call is
    answered with the given status. *)
Definition env_status (status : Z) : Env :=
  {| clock := λ n, "T" ++ pretty n;
     remote := λ _ _, inl {| status_code := status |} |}.

(** Every outbound call raises the given exception. *)
Definition env_raising (e : Exception) : Env :=
  {| clock := λ n, "T" ++ pretty n;
     remote := λ _ _, inr e |}.

(** [requests.exceptions.ReadTimeout], [requests.exceptions.ConnectionError]
    and a [ValueError], with sample texts. *)
Definition ReadTimeout : Exception :=
  {| is_Timeout := true; is_ConnectionError := false; str_e := "Read timed out." |}.

Definition ConnectionRefused : Exception :=
  {| is_Timeout := false; is_ConnectionError := true; str_e := "Connection refused" |}.

Definition ValueError (text : string) : Exception :=
  {| is_Timeout := false; is_ConnectionError := false; str_e := text |}.

(** ** The HTTP layer *)

(** [bool(v)]: [None], [False], zero and the empty string, list and
    dictionary are falsy. *)
Definition truthy (v : pyval) : bool :=
  match v with
  | PNone => false
  | PBool b => b
  | PInt n => negb (n =? 0)
  | PStr s => negb (String.eqb s "")
  | PList items => match items with [] => false | _ => true end
  | PDict items => match items with [] => false | _ => true end
  end.

(** [type(v).__name__]. *)
Definition type_name (v : pyval) : string :=
  match v with
  | PNone => "NoneType"
  | PBool _ => "bool"
  | PInt _ => "int"
  | PStr _ => "str"
  | PList _ => "list"
  | PDict _ => "dict"
  end.

(** The [AttributeError] raised by [v.attr] on a value without that
    attribute. *)
Definition AttributeError (v : pyval) (attr : string) : Exception :=
  {| is_Timeout := false;
     is_ConnectionError := false;
     str_e := "'" ++ type_name v ++ "' object has no attribute '" ++ attr ++ "'" |}.

(** [data.get(key, dflt)].  Only a dictionary has the method; [items]
    are the items of the dictionary, whose keys are distinct. *)
Definition py_get (data : pyval) (key : string) (dflt : pyval) : M pyval :=
  match data with
  | PDict items => mret (default dflt ((list_to_map items : gmap string pyval) !! key))
  | _ => raise (AttributeError data "get")
  end.

(** [request.get_json()], given what it evaluates to for the request at
    hand: the parsed body ([None] when there is none), or the exception
    it raises.  Bodies that contain floating-point numbers have no
    counterpart in [pyval]. *)
Definition request_get_json (parsed : outcome pyval) : M pyval :=
  λ w, (parsed, w).

(** [x or {}]. *)
Definition or_empty_dict (x : pyval) : pyval :=
  if truthy x then x else PDict [].

(** What a view function hands to Flask: the JSON body and the status of
    the response. *)
Record FlaskResponse : Type := {
  response_json : gmap string pyval;
  response_status : Z
}.

(** [jsonify(d)]: a response with status 200. *)
Definition jsonify (d : gmap string pyval) : FlaskResponse :=
  {| response_json := d; response_status := 200 |}.

(** [return jsonify(d), status]. *)
Definition jsonify_with_status (d : gmap string pyval) (status : Z) : FlaskResponse :=
  {| response_json := d; response_status := status |}.

(** [None] or a string, as a Python value. *)
Definition optional_str (o : option string) : pyval :=
  match o with
  | Some s => PStr s
  | None => PNone
  end.

(** Reading [system_state]. *)
Definition read_state : M SystemState := λ w, (Returns (system_state w), w).

(** The keys of [WEBHOOK_CONFIG] in the order in which the dictionary
    literal lists them, the order in which [WEBHOOK_CONFIG.items()]
    yields them. *)
Definition WEBHOOK_CONFIG_keys : list string :=
  [ "lock_screen"; "block_touch"; "open_site1"; "open_site2"; "open_site3" ].

(** The loop of [get_actions], over the keys still to visit. *)
Fixpoint get_actions_loop (keys : list string) (actions : list pyval) : M (list pyval) :=
  match keys with
  | [] => mret actions
  | key :: rest =>
      config ← getitem WEBHOOK_CONFIG key ;
      description ← getitem config "description" ;
      get_actions_loop rest
        (actions ++ [PDict [("key", PStr key); ("description", PStr description)]])
  end.

(** [get_actions], the view of GET /api/actions. *)
Definition get_actions : M FlaskResponse :=
  actions ← get_actions_loop WEBHOOK_CONFIG_keys [] ;
  mret (jsonify {[ "actions" := PList actions;
                   "total_count" := PInt (Z.of_nat (length actions)) ]}).

Section Routes.

Variable env : Env.

(** [get_status], the view of GET /api/status.  The dictionary is built
    while [state_lock] is held. *)
Definition get_status : M FlaskResponse :=
  state ← read_state ;
  current_time ← datetime_now_isoformat env ;
  mret (jsonify
          {[ "online" := PBool true;
             "last_action" := optional_str (last_action state);
             "last_action_time" := optional_str (last_action_time state);
             "last_action_status" := optional_str (last_action_status state);
             "statistics" :=
               PDict [ ("total_requests", PInt (total_requests state));
                       ("successful_requests", PInt (successful_requests state));
                       ("failed_requests", PInt (failed_requests state)) ];
             "backend_start_time" := PStr (backend_start_time state);
             "current_time" := PStr current_time ]}).

(** [lock_screen], the view of POST /api/lock. *)
Definition lock_screen : M FlaskResponse :=
  logger "INFO" "Lock screen action requested" ;;
  result ← trigger_webhook env "lock_screen" None ;
  mret (jsonify result).

(** [block_touch], the view of POST /api/block-touch. *)
Definition block_touch (parsed : outcome pyval) : M FlaskResponse :=
  logger "INFO" "Block touch action requested" ;;
  body ← request_get_json parsed ;
  let data := or_empty_dict body in
  duration ← py_get data "duration" (PInt 10) ;
  result ← trigger_webhook env "block_touch" (Some {[ "duration" := duration ]}) ;
  mret (jsonify result).

(** [open_site1], the view of POST /api/open-site1. *)
Definition open_site1 (parsed : outcome pyval) : M FlaskResponse :=
  logger "INFO" "Open Site 1 action requested" ;;
  body ← request_get_json parsed ;
  let data := or_empty_dict body in
  url ← py_get data "url" PNone ;
  let payload := if truthy url then Some {[ "url" := url ]} else None in
  result ← trigger_webhook env "open_site1" payload ;
  mret (jsonify result).

(** [open_site2], the view of POST /api/open-site2. *)
Definition open_site2 (parsed : outcome pyval) : M FlaskResponse :=
  logger "INFO" "Open Site 2 action requested" ;;
  body ← request_get_json parsed ;
  let data := or_empty_dict body in
  url ← py_get data "url" PNone ;
  let payload := if truthy url then Some {[ "url" := url ]} else None in
  result ← trigger_webhook env "open_site2" payload ;
  mret (jsonify result).

(** [open_site3], the view of POST /api/open-site3. *)
Definition open_site3 (parsed : outcome pyval) : M FlaskResponse :=
  logger "INFO" "Open Site 3 action requested" ;;
  body ← request_get_json parsed ;
  let data := or_empty_dict body in
  url ← py_get data "url" PNone ;
  let payload := if truthy url then Some {[ "url" := url ]} else None in
  result ← trigger_webhook env "open_site3" payload ;
  mret (jsonify result).

(** [test_webhook], the view of POST /api/test-webhook/<webhook_key>. *)
Definition test_webhook (webhook_key : string) : M FlaskResponse :=
  logger "INFO" ("Testing webhook: " ++ webhook_key) ;;
  result ← trigger_webhook env webhook_key None ;
  mret (jsonify result).

(** [not_found], the handler of 404 errors; [error] is not read. *)
Definition not_found (error : string) : M FlaskResponse :=
  timestamp ← datetime_now_isoformat env ;
  mret (jsonify_with_status
          {[ "success" := PBool false;
             "message" := PStr "Endpoint not found";
             "timestamp" := PStr timestamp ]}
          404).

(** [internal_error], the handler of 500 errors; [error] is
    [str(error)]. *)
Definition internal_error (error : string) : M FlaskResponse :=
  logger "ERROR" ("Internal server error: " ++ error) ;;
  timestamp ← datetime_now_isoformat env ;
  mret (jsonify_with_status
          {[ "success" := PBool false;
             "message" := PStr "Internal server error";
             "timestamp" := PStr timestamp ]}
          500).

End Routes.

(** ** Notions used in the statements about the HTTP layer *)

(** Whether a call names a configured key. *)
Definition configured (call : string * option (gmap string pyval)) : bool :=
  contains WEBHOOK_CONFIG call.1.

(** The three fields that describe the last action are unset together,
    before any request was recorded, or set together, to a configured key
    and to one of the two status words. *)
Definition last_action_consistent (s : SystemState) : Prop :=
  match last_action s, last_action_time s, last_action_status s with
  | None, None, None => total_requests s = 0
  | Some k, Some _, Some status =>
      is_Some (WEBHOOK_CONFIG !! k) ∧
      (status = "success" ∨ status = "error") ∧
      0 < total_requests s
  | _, _, _ => False
  end.

(** The outbound call of a view for the configured URL [u] with JSON
    body [body]. *)
Definition post_to (u : string) (body : gmap string pyval) : Request :=
  {| method := "POST";
     url := u;
     json := body;
     timeout := 10;
     headers := {[ "Content-Type" := "application/json" ]} |}.

(** What an open-site view does with a request body that is falsy or a
    dictionary: it forwards the [url] of the body when that is truthy and
    sends an empty object otherwise, and answers 200. *)
Definition forwards_url (env : Env) (route : outcome pyval → M FlaskResponse)
    (u : string) : Prop :=
  ∀ (v : pyval) (w : World),
    truthy v = false ∨ (∃ items, v = PDict items) →
    ∃ resp w',
      route (Returns v) w = (Returns resp, w') ∧
      response_status resp = 200 ∧
      posts w' =
        (posts w ++
         [ post_to u
             match v with
             | PDict items =>
                 match (list_to_map items : gmap string pyval) !! "url" with
                 | Some target => if truthy target then {[ "url" := target ]} else ∅
                 | None => ∅
                 end
             | _ => ∅
             end ])%list.

(** The results of the calls of [calls], run one after the other. *)
Fixpoint dispatch_results (env : Env) (calls : list (string * option (gmap string pyval)))
    (w : World) : list (outcome (gmap string pyval)) :=
  match calls with
  | [] => []
  | (webhook_key, payload) :: rest =>
      (trigger_webhook env webhook_key payload w).1 ::
      dispatch_results env rest (trigger_webhook env webhook_key payload w).2
  end.

(** Whether a dispatch returned a result with [success] true. *)
Definition reports_success (o : outcome (gmap string pyval)) : bool :=
  match o with
  | Returns r =>
      match r !! "success" with
      | Some (PBool true) => true
      | _ => false
      end
  | Raises _ => false
  end.

(** * Properties *)

(** ** Running the monad *)

Lemma bind_Returns {A B} (m : M A) (f : A → M B) w a w' :
  m w = (Returns a, w') → (m ≫= f) w = f a w'.
Proof. intros H. unfold mbind, M_bind. by rewrite H. Qed.

Lemma bind_Raises {A B} (m : M A) (f : A → M B) w e w' :
  m w = (Raises e, w') → (m ≫= f) w = (Raises e, w').
Proof. intros H. unfold mbind, M_bind. by rewrite H. Qed.

Lemma try_Returns {A} (body : M A) handler w a w' :
  body w = (Returns a, w') → try_except body handler w = (Returns a, w').
Proof. intros H. unfold try_except. by rewrite H. Qed.

Lemma try_Raises {A} (body : M A) handler w e w' :
  body w = (Raises e, w') → try_except body handler w = handler e w'.
Proof. intros H. unfold try_except. by rewrite H. Qed.

Lemma getitem_Some {V} (d : gmap string V) key v w :
  d !! key = Some v → getitem d key w = (Returns v, w).
Proof. intros H. unfold getitem. by rewrite H. Qed.

Lemma contains_true {V} (d : gmap string V) key v :
  d !! key = Some v → contains d key = true.
Proof. intros H. unfold contains. apply bool_decide_eq_true_2. eauto. Qed.

Lemma contains_false {V} (d : gmap string V) key :
  d !! key = None → contains d key = false.
Proof.
  intros H. unfold contains. apply bool_decide_eq_false_2.
  rewrite H. by intros [? ?].
Qed.

(** ** The registry *)

(** Every entry of [WEBHOOK_CONFIG] has a URL and a description. *)
Lemma config_entries k info :
  WEBHOOK_CONFIG !! k = Some info →
  ∃ u d, info !! "url" = Some u ∧ info !! "description" = Some d.
Proof.
  unfold WEBHOOK_CONFIG. intros H.
  repeat (rewrite lookup_insert in H; case_decide;
          [simplify_eq; eexists _, _; split; reflexivity|]).
  rewrite lookup_singleton in H.
  case_decide; [simplify_eq; eexists _, _; split; reflexivity|]. done.
Qed.

Lemma payload_or_empty_default payload :
  payload_or_empty payload = default ∅ payload.
Proof.
  destruct payload as [d|]; simpl; [|done].
  case_bool_decide; congruence.
Qed.

Section Relay_properties.

Variable env : Env.

(** ** [update_state] *)

Lemma update_state_eq action_name status message w :
  update_state env action_name status message w =
  (Returns (),
   {| system_state :=
        recorded action_name status (clock env (clock_reads w)) (system_state w);
      clock_reads := S (clock_reads w);
      posts := posts w;
      log := log w |}).
Proof.
  unfold update_state, recorded.
  destruct (String.eqb status "success"); reflexivity.
Qed.

Ltac run :=
  repeat first
    [ erewrite bind_Returns by first [ apply update_state_eq | reflexivity ]
    | progress (unfold mret, M_ret) ].

(** ** [trigger_webhook], branch by branch *)

Lemma trigger_webhook_unknown k payload w :
  WEBHOOK_CONFIG !! k = None →
  trigger_webhook env k payload w =
  (Returns {[ "success" := PBool false;
              "action" := PStr k;
              "message" := PStr ("Unknown action: " ++ k);
              "timestamp" := PStr (clock env (clock_reads w)) ]},
   {| system_state := system_state w;
      clock_reads := S (clock_reads w);
      posts := posts w;
      log := log w ++ [("ERROR", "Invalid webhook key: " ++ k)] |}).
Proof.
  intros H. unfold trigger_webhook. rewrite (contains_false _ _ H). simpl.
  run. reflexivity.
Qed.


Lemma requests_post_response u payload w response :
  remote env (length (posts w)) (webhook_request u payload) = inl response →
  requests_post env u (payload_or_empty payload) WEBHOOK_TIMEOUT
    {[ "Content-Type" := "application/json" ]} w =
  (Returns response,
   {| system_state := system_state w;
      clock_reads := clock_reads w;
      posts := posts w ++ [webhook_request u payload];
      log := log w |}).
Proof. intros H. unfold requests_post. fold (webhook_request u payload). by rewrite H. Qed.

Lemma requests_post_raises u payload w e :
  remote env (length (posts w)) (webhook_request u payload) = inr e →
  requests_post env u (payload_or_empty payload) WEBHOOK_TIMEOUT
    {[ "Content-Type" := "application/json" ]} w =
  (Raises e,
   {| system_state := system_state w;
      clock_reads := clock_reads w;
      posts := posts w ++ [webhook_request u payload];
      log := log w |}).
Proof. intros H. unfold requests_post. fold (webhook_request u payload). by rewrite H. Qed.

Ltac prelude H Hu :=
  unfold trigger_webhook; rewrite (contains_true _ _ _ H); simpl;
  erewrite bind_Returns by (by apply getitem_Some);
  erewrite bind_Returns by (by apply getitem_Some);
  run.

Lemma trigger_webhook_2xx k info u d payload w response :
  WEBHOOK_CONFIG !! k = Some info →
  info !! "url" = Some u →
  info !! "description" = Some d →
  remote env (length (posts w)) (webhook_request u payload) = inl response →
  (200 <=? status_code response) && (status_code response <? 300) = true →
  ∃ lg,
    trigger_webhook env k payload w =
    (Returns {[ "success" := PBool true;
                "action" := PStr k;
                "message" := PStr (d ++ " - Command sent successfully");
                "status_code" := PInt (status_code response);
                "timestamp" := PStr (clock env (S (clock_reads w))) ]},
     {| system_state := recorded k "success" (clock env (clock_reads w)) (system_state w);
        clock_reads := S (S (clock_reads w));
        posts := posts w ++ [webhook_request u payload];
        log := lg |}).
Proof.
  intros H Hu Hd Hr Hs. eexists. prelude H Hu.
  erewrite try_Returns; [reflexivity|].
  erewrite bind_Returns by (by apply requests_post_response).
  run. rewrite Hs. run.
  erewrite bind_Returns by (by apply getitem_Some).
  run. reflexivity.
Qed.


Lemma trigger_webhook_non2xx k info u payload w response :
  WEBHOOK_CONFIG !! k = Some info →
  info !! "url" = Some u →
  remote env (length (posts w)) (webhook_request u payload) = inl response →
  (200 <=? status_code response) && (status_code response <? 300) = false →
  ∃ lg,
    trigger_webhook env k payload w =
    (Returns {[ "success" := PBool false;
                "action" := PStr k;
                "message" := PStr ("Webhook returned HTTP " ++ str_int (status_code response));
                "status_code" := PInt (status_code response);
                "timestamp" := PStr (clock env (S (clock_reads w))) ]},
     {| system_state := recorded k "error" (clock env (clock_reads w)) (system_state w);
        clock_reads := S (S (clock_reads w));
        posts := posts w ++ [webhook_request u payload];
        log := lg |}).
Proof.
  intros H Hu Hr Hs. eexists. prelude H Hu.
  erewrite try_Returns; [reflexivity|].
  erewrite bind_Returns by (by apply requests_post_response).
  run. rewrite Hs. run. reflexivity.
Qed.

Lemma trigger_webhook_timeout k info u payload w e :
  WEBHOOK_CONFIG !! k = Some info →
  info !! "url" = Some u →
  remote env (length (posts w)) (webhook_request u payload) = inr e →
  is_Timeout e = true →
  ∃ lg,
    trigger_webhook env k payload w =
    (Returns {[ "success" := PBool false;
                "action" := PStr k;
                "message" := PStr "Request timed out. Phone may be unreachable.";
                "timestamp" := PStr (clock env (S (clock_reads w))) ]},
     {| system_state := recorded k "error" (clock env (clock_reads w)) (system_state w);
        clock_reads := S (S (clock_reads w));
        posts := posts w ++ [webhook_request u payload];
        log := lg |}).
Proof.
  intros H Hu Hr He. eexists. prelude H Hu.
  erewrite try_Raises
    by (erewrite bind_Raises by (by apply requests_post_raises); reflexivity).
  rewrite He. run. reflexivity.
Qed.

Lemma trigger_webhook_connection k info u payload w e :
  WEBHOOK_CONFIG !! k = Some info →
  info !! "url" = Some u →
  remote env (length (posts w)) (webhook_request u payload) = inr e →
  is_Timeout e = false →
  is_ConnectionError e = true →
  ∃ lg,
    trigger_webhook env k payload w =
    (Returns {[ "success" := PBool false;
                "action" := PStr k;
                "message" := PStr "Cannot connect to phone. Check internet connection.";
                "timestamp" := PStr (clock env (S (clock_reads w))) ]},
     {| system_state := recorded k "error" (clock env (clock_reads w)) (system_state w);
        clock_reads := S (S (clock_reads w));
        posts := posts w ++ [webhook_request u payload];
        log := lg |}).
Proof.
  intros H Hu Hr Ht Hc. eexists. prelude H Hu.
  erewrite try_Raises
    by (erewrite bind_Raises by (by apply requests_post_raises); reflexivity).
  rewrite Ht, Hc. run. reflexivity.
Qed.

Lemma trigger_webhook_unexpected k info u payload w e :
  WEBHOOK_CONFIG !! k = Some info →
  info !! "url" = Some u →
  remote env (length (posts w)) (webhook_request u payload) = inr e →
  is_Timeout e = false →
  is_ConnectionError e = false →
  ∃ lg,
    trigger_webhook env k payload w =
    (Returns {[ "success" := PBool false;
                "action" := PStr k;
                "message" := PStr ("Unexpected error: " ++ str_e e);
                "timestamp" := PStr (clock env (S (clock_reads w))) ]},
     {| system_state := recorded k "error" (clock env (clock_reads w)) (system_state w);
        clock_reads := S (S (clock_reads w));
        posts := posts w ++ [webhook_request u payload];
        log := lg |}).
Proof.
  intros H Hu Hr Ht Hc. eexists. prelude H Hu.
  erewrite try_Raises
    by (erewrite bind_Raises by (by apply requests_post_raises); reflexivity).
  rewrite Ht, Hc. run. reflexivity.
Qed.

(** ** All branches at once *)

(** Every dispatch for a configured key returns; it makes one outbound
    call, reads the clock twice and performs one update. *)
Lemma trigger_webhook_known k info u payload w :
  WEBHOOK_CONFIG !! k = Some info →
  info !! "url" = Some u →
  ∃ r status lg,
    relayed k info (remote env (length (posts w)) (webhook_request u payload))
      r (clock env (S (clock_reads w))) status ∧
    trigger_webhook env k payload w =
    (Returns r,
     {| system_state := recorded k status (clock env (clock_reads w)) (system_state w);
        clock_reads := S (S (clock_reads w));
        posts := posts w ++ [webhook_request u payload];
        log := lg |}).
Proof.
  intros H Hu.
  destruct (config_entries _ _ H) as (u' & d & Hu' & Hd).
  destruct (remote env (length (posts w)) (webhook_request u payload))
    as [response|e] eqn:Hr.
  - destruct ((200 <=? status_code response) && (status_code response <? 300)) eqn:Hs.
    + destruct (trigger_webhook_2xx _ _ _ _ _ _ _ H Hu Hd Hr Hs) as [lg ->].
      eexists _, _, _. split; [|reflexivity]. exact (relayed_2xx _ _ _ _ _ Hd Hs).
    + destruct (trigger_webhook_non2xx _ _ _ _ _ _ H Hu Hr Hs) as [lg ->].
      eexists _, _, _. split; [|reflexivity]. exact (relayed_non2xx _ _ _ _ Hs).
  - destruct (is_Timeout e) eqn:Ht; [|destruct (is_ConnectionError e) eqn:Hc].
    + destruct (trigger_webhook_timeout _ _ _ _ _ _ H Hu Hr Ht) as [lg ->].
      eexists _, _, _. split; [|reflexivity]. exact (relayed_timeout _ _ _ _ Ht).
    + destruct (trigger_webhook_connection _ _ _ _ _ _ H Hu Hr Ht Hc) as [lg ->].
      eexists _, _, _. split; [|reflexivity]. exact (relayed_connection _ _ _ _ Ht Hc).
    + destruct (trigger_webhook_unexpected _ _ _ _ _ _ H Hu Hr Ht Hc) as [lg ->].
      eexists _, _, _. split; [|reflexivity]. exact (relayed_unexpected _ _ _ _ Ht Hc).
Qed.


Lemma trigger_webhook_returns k payload w :
  ∃ r w', trigger_webhook env k payload w = (Returns r, w').
Proof.
  destruct (WEBHOOK_CONFIG !! k) as [info|] eqn:H.
  - destruct (config_entries _ _ H) as (u & d & Hu & _).
    destruct (trigger_webhook_known _ _ _ payload w H Hu) as (r & st & lg & _ & ->).
    eauto.
  - rewrite (trigger_webhook_unknown _ payload w H). eauto.
Qed.

(** ** The counters *)

Lemma recorded_invariant a st now s :
  stats_invariant s → stats_invariant (recorded a st now s).
Proof.
  unfold stats_invariant, recorded. simpl.
  destruct (String.eqb st "success"); lia.
Qed.

Lemma update_state_invariant a st msg w :
  stats_invariant (system_state w) →
  stats_invariant (system_state (snd (update_state env a st msg w))).
Proof. rewrite update_state_eq. simpl. apply recorded_invariant. Qed.

Lemma trigger_webhook_invariant k payload w :
  stats_invariant (system_state w) →
  stats_invariant (system_state (snd (trigger_webhook env k payload w))).
Proof.
  intros Hinv. destruct (WEBHOOK_CONFIG !! k) as [info|] eqn:H.
  - destruct (config_entries _ _ H) as (u & d & Hu & _).
    destruct (trigger_webhook_known _ _ _ payload w H Hu) as (r & st & lg & _ & ->).
    simpl. by apply recorded_invariant.
  - by rewrite (trigger_webhook_unknown _ payload w H).
Qed.

Lemma dispatch_all_invariant calls w :
  stats_invariant (system_state w) →
  stats_invariant (system_state (dispatch_all env calls w)).
Proof.
  revert w. induction calls as [|[k payload] calls IH]; intros w Hinv; simpl.
  - exact Hinv.
  - apply IH. by apply trigger_webhook_invariant.
Qed.

Lemma update_all_invariant updates w :
  stats_invariant (system_state w) →
  stats_invariant (system_state (update_all env updates w)).
Proof.
  revert w. induction updates as [|[[a st] msg] updates IH]; intros w Hinv; simpl.
  - exact Hinv.
  - apply IH. by apply update_state_invariant.
Qed.

(** C1.  Starting from a state whose three counters are zero, after any
    sequence of dispatches, and after any sequence of statistics
    updates, [total_requests] equals [successful_requests] plus
    [failed_requests]. *)
Theorem counters_invariant calls updates w :
  total_requests (system_state w) = 0 →
  successful_requests (system_state w) = 0 →
  failed_requests (system_state w) = 0 →
  stats_invariant (system_state (dispatch_all env calls w)) ∧
  stats_invariant (system_state (update_all env updates w)).
Proof.
  intros Ht Hs Hf.
  assert (stats_invariant (system_state w)) as Hinv
    by (unfold stats_invariant; lia).
  split; [by apply dispatch_all_invariant | by apply update_all_invariant].
Qed.

(** ** The outcome of one dispatch *)

(** C2.  For a configured key whose outbound call is answered with a
    status [s] with [200 <= s < 300], the dispatch returns a dictionary
    with [success] true, the message "<description> - Command sent
    successfully" and [status_code] equal to [s]; [total_requests] and
    [successful_requests] grow by one and [failed_requests] keeps its
    value. *)
Theorem dispatch_2xx k info u d payload w s :
  WEBHOOK_CONFIG !! k = Some info →
  info !! "url" = Some u →
  info !! "description" = Some d →
  remote env (length (posts w)) (webhook_request u payload) = inl {| status_code := s |} →
  200 ≤ s < 300 →
  ∃ r w',
    trigger_webhook env k payload w = (Returns r, w') ∧
    r !! "success" = Some (PBool true) ∧
    r !! "message" = Some (PStr (d ++ " - Command sent successfully")) ∧
    r !! "status_code" = Some (PInt s) ∧
    total_requests (system_state w') = total_requests (system_state w) + 1 ∧
    successful_requests (system_state w') = successful_requests (system_state w) + 1 ∧
    failed_requests (system_state w') = failed_requests (system_state w) ∧
    last_action_status (system_state w') = Some "success".
Proof.
  intros H Hu Hd Hr Hs.
  assert ((200 <=? s) && (s <? 300) = true) as Hb
    by (apply andb_true_intro; split; [apply Z.leb_le | apply Z.ltb_lt]; lia).
  destruct (trigger_webhook_2xx _ _ _ _ _ _ _ H Hu Hd Hr Hb) as [lg ->].
  eexists _, _. split; [reflexivity|]. simpl. repeat split; reflexivity.
Qed.

(** C3.  For a configured key whose outbound call is answered with a
    status [s] outside [200, 300), the dispatch returns a dictionary
    with [success] false, the message "Webhook returned HTTP <s>" and
    [status_code] equal to [s]; [total_requests] and [failed_requests]
    grow by one and [successful_requests] keeps its value. *)
Theorem dispatch_non2xx k info u payload w s :
  WEBHOOK_CONFIG !! k = Some info →
  info !! "url" = Some u →
  remote env (length (posts w)) (webhook_request u payload) = inl {| status_code := s |} →
  ¬ (200 ≤ s < 300) →
  ∃ r w',
    trigger_webhook env k payload w = (Returns r, w') ∧
    r !! "success" = Some (PBool false) ∧
    r !! "message" = Some (PStr ("Webhook returned HTTP " ++ str_int s)) ∧
    r !! "status_code" = Some (PInt s) ∧
    total_requests (system_state w') = total_requests (system_state w) + 1 ∧
    failed_requests (system_state w') = failed_requests (system_state w) + 1 ∧
    successful_requests (system_state w') = successful_requests (system_state w) ∧
    last_action_status (system_state w') = Some "error".
Proof.
  intros H Hu Hr Hs.
  assert ((200 <=? s) && (s <? 300) = false) as Hb.
  { apply andb_false_iff. rewrite Z.leb_gt, Z.ltb_ge. lia. }
  destruct (trigger_webhook_non2xx _ _ _ _ _ _ H Hu Hr Hb) as [lg ->].
  eexists _, _. split; [reflexivity|]. simpl. repeat split; reflexivity.
Qed.

(** C4.  For a key that is not in the registry, the dispatch returns a
    dictionary with [success] false and the message "Unknown action:
    <key>"; it makes no outbound call and leaves [system_state] as it
    was. *)
Theorem dispatch_unknown k payload w :
  WEBHOOK_CONFIG !! k = None →
  ∃ r w',
    trigger_webhook env k payload w = (Returns r, w') ∧
    r !! "success" = Some (PBool false) ∧
    r !! "message" = Some (PStr ("Unknown action: " ++ k)) ∧
    posts w' = posts w ∧
    system_state w' = system_state w.
Proof.
  intros H. rewrite (trigger_webhook_unknown _ payload w H).
  eexists _, _. split; [reflexivity|]. repeat split; reflexivity.
Qed.

(** C5.  For a configured key: when the outbound call raises a timeout,
    the dispatch returns [success] false with the message "Request timed
    out. Phone may be unreachable."; when it raises a connection error
    (one that is not a timeout, which the first handler takes), it
    returns [success] false with the message "Cannot connect to phone.
    Check internet connection."; in both cases [total_requests] and
    [failed_requests] grow by one. *)
Theorem dispatch_timeout_or_unreachable k info u payload w e :
  WEBHOOK_CONFIG !! k = Some info →
  info !! "url" = Some u →
  remote env (length (posts w)) (webhook_request u payload) = inr e →
  (is_Timeout e = true →
   ∃ r w',
     trigger_webhook env k payload w = (Returns r, w') ∧
     r !! "success" = Some (PBool false) ∧
     r !! "message" = Some (PStr "Request timed out. Phone may be unreachable.") ∧
     error_recorded k w w') ∧
  (is_Timeout e = false → is_ConnectionError e = true →
   ∃ r w',
     trigger_webhook env k payload w = (Returns r, w') ∧
     r !! "success" = Some (PBool false) ∧
     r !! "message" = Some (PStr "Cannot connect to phone. Check internet connection.") ∧
     error_recorded k w w').
Proof.
  intros H Hu Hr. split.
  - intros Ht.
    destruct (trigger_webhook_timeout _ _ _ _ _ _ H Hu Hr Ht) as [lg ->].
    eexists _, _. split; [reflexivity|]. unfold error_recorded. simpl.
    repeat split; reflexivity.
  - intros Ht Hc.
    destruct (trigger_webhook_connection _ _ _ _ _ _ H Hu Hr Ht Hc) as [lg ->].
    eexists _, _. split; [reflexivity|]. unfold error_recorded. simpl.
    repeat split; reflexivity.
Qed.

(** C6.  One statistics update, for any action name and any status,
    adds one to [total_requests], adds one to [successful_requests] and
    nothing to [failed_requests] when the status is 'success' and the
    other way round otherwise, overwrites [last_action],
    [last_action_time] and [last_action_status], and keeps
    [backend_start_time]. *)
Theorem update_state_effect action_name status message w :
  ∃ w',
    update_state env action_name status message w = (Returns (), w') ∧
    total_requests (system_state w') = total_requests (system_state w) + 1 ∧
    (status = "success" →
     successful_requests (system_state w') = successful_requests (system_state w) + 1 ∧
     failed_requests (system_state w') = failed_requests (system_state w)) ∧
    (status ≠ "success" →
     successful_requests (system_state w') = successful_requests (system_state w) ∧
     failed_requests (system_state w') = failed_requests (system_state w) + 1) ∧
    last_action (system_state w') = Some action_name ∧
    last_action_time (system_state w') = Some (clock env (clock_reads w)) ∧
    last_action_status (system_state w') = Some status ∧
    backend_start_time (system_state w') = backend_start_time (system_state w).
Proof.
  rewrite update_state_eq. eexists. split; [reflexivity|]. simpl.
  split; [reflexivity|]. split; [|split; [|by repeat split]].
  - intros ->. by split.
  - intros Hst. apply String.eqb_neq in Hst. rewrite Hst. by split.
Qed.

(** C7.  A dispatch never raises: for every key, payload, world and
    environment it returns a dictionary that has the shape of a relay
    result.  When the outbound call raises an exception that is neither
    a timeout nor a connection error, the result has [success] false,
    its message is "Unexpected error: " followed by the text of the
    exception, and an error is recorded. *)
Theorem dispatch_never_raises k payload w :
  (∃ r w', trigger_webhook env k payload w = (Returns r, w') ∧ is_RelayResult r) ∧
  (∀ info u e,
     WEBHOOK_CONFIG !! k = Some info →
     info !! "url" = Some u →
     remote env (length (posts w)) (webhook_request u payload) = inr e →
     is_Timeout e = false →
     is_ConnectionError e = false →
     ∃ r w',
       trigger_webhook env k payload w = (Returns r, w') ∧
       r !! "success" = Some (PBool false) ∧
       r !! "message" = Some (PStr ("Unexpected error: " ++ str_e e)) ∧
       error_recorded k w w').
Proof.
  split.
  - destruct (WEBHOOK_CONFIG !! k) as [info|] eqn:H.
    + destruct (config_entries _ _ H) as (u & d & Hu & _).
      destruct (trigger_webhook_known _ _ _ payload w H Hu)
        as (r & st & lg & Hrel & ->).
      eexists _, _. split; [reflexivity|].
      destruct Hrel; unfold is_RelayResult;
        (repeat split; [eexists; reflexivity ..|]);
        first [ left; reflexivity | right; eexists; reflexivity ].
    + rewrite (trigger_webhook_unknown _ payload w H).
      eexists _, _. split; [reflexivity|]. unfold is_RelayResult.
      repeat split; [eexists; reflexivity ..|]. left; reflexivity.
  - intros info u e H Hu Hr Ht Hc.
    destruct (trigger_webhook_unexpected _ _ _ _ _ _ H Hu Hr Ht Hc) as [lg ->].
    eexists _, _. split; [reflexivity|]. unfold error_recorded. simpl.
    repeat split; reflexivity.
Qed.

(** C8.  For a configured key, whatever the outbound call does, the
    dispatch makes exactly one outbound call: a POST to the URL
    configured for the key, whose body is the payload, or the empty
    object when there is none, with the header Content-Type:
    application/json and a timeout of 10 seconds. *)
Theorem dispatch_one_post k info u payload w :
  WEBHOOK_CONFIG !! k = Some info →
  info !! "url" = Some u →
  ∃ r w',
    trigger_webhook env k payload w = (Returns r, w') ∧
    posts w' =
      (posts w ++
       [ {| method := "POST";
            url := u;
            json := match payload with Some body => body | None => ∅ end;
            timeout := 10;
            headers := {[ "Content-Type" := "application/json" ]} |} ])%list.
Proof.
  intros H Hu.
  destruct (trigger_webhook_known _ _ _ payload w H Hu) as (r & st & lg & _ & ->).
  eexists _, _. split; [reflexivity|]. simpl.
  unfold webhook_request. rewrite payload_or_empty_default.
  by destruct payload.
Qed.

(** C9.  For every key, configured or not, and every outcome of the
    outbound call, the [action] field of the returned dictionary is the
    key. *)
Theorem dispatch_action_field k payload w :
  ∃ r w',
    trigger_webhook env k payload w = (Returns r, w') ∧
    r !! "action" = Some (PStr k).
Proof.
  destruct (WEBHOOK_CONFIG !! k) as [info|] eqn:H.
  - destruct (config_entries _ _ H) as (u & d & Hu & _).
    destruct (trigger_webhook_known _ _ _ payload w H Hu)
      as (r & st & lg & Hrel & ->).
    eexists _, _. split; [reflexivity|]. by destruct Hrel.
  - rewrite (trigger_webhook_unknown _ payload w H).
    eexists _, _. split; reflexivity.
Qed.

(** C10.  The returned dictionary has the key [status_code] exactly
    when the key is configured and the outbound call was answered with
    a response; it has none for an unknown key and when the outbound
    call raised. *)
Theorem dispatch_status_code_present k payload w :
  ∃ r w',
    trigger_webhook env k payload w = (Returns r, w') ∧
    (is_Some (r !! "status_code") ↔
     ∃ info u response,
       WEBHOOK_CONFIG !! k = Some info ∧
       info !! "url" = Some u ∧
       remote env (length (posts w)) (webhook_request u payload) = inl response).
Proof.
  destruct (WEBHOOK_CONFIG !! k) as [info|] eqn:H.
  - destruct (config_entries _ _ H) as (u & d & Hu & _).
    destruct (trigger_webhook_known _ _ _ payload w H Hu)
      as (r & st & lg & Hrel & ->).
    eexists _, _. split; [reflexivity|].
    remember (remote env (length (posts w)) (webhook_request u payload)) as o eqn:Ho.
    symmetry in Ho.
    assert (∀ info' u' response',
              Some info = Some info' → info' !! "url" = Some u' →
              remote env (length (posts w)) (webhook_request u' payload) = inl response' →
              o = inl response') as Hsame
      by (intros ??? [= <-] Hu' Hr'; congruence).
    destruct Hrel as [response ? ? ? ?|response ? ?|e ? ?|e ? ? ?|e ? ? ?].
    1, 2: split; [intros _; by eexists _, _, _ | intros _; by eexists].
    all: split; [intros [? ?]; done
                | intros (? & ? & ? & Hi & Hu' & Hr');
                  by specialize (Hsame _ _ _ Hi Hu' Hr')].
  - rewrite (trigger_webhook_unknown _ payload w H).
    eexists _, _. split; [reflexivity|]. split.
    + intros [? ?]. done.
    + intros (? & ? & ? & ? & _). done.
Qed.

End Relay_properties.

(** ** The claims at concrete inputs *)

(** A dispatch of [lock_screen] answered with HTTP 200, from the initial
    state. *)
Example lock_screen_200 :
  trigger_webhook (env_status 200) "lock_screen" None (initial_world "T") =
  (Returns {[ "success" := PBool true;
              "action" := PStr "lock_screen";
              "message" := PStr "Lock the phone screen immediately - Command sent successfully";
              "status_code" := PInt 200;
              "timestamp" := PStr "T1" ]},
   {| system_state :=
        {| last_action := Some "lock_screen";
           last_action_time := Some "T0";
           last_action_status := Some "success";
           total_requests := 1;
           successful_requests := 1;
           failed_requests := 0;
           backend_start_time := "T" |};
      clock_reads := 2;
      posts :=
        [ webhook_request
            "https://trigger.macrodroid.com/44152ed5-575d-4f82-97b1-8ce1f4e9bde5/lock"
            None ];
      log :=
        [ ("INFO", "Triggering webhook: lock_screen");
          ("INFO", "URL: https://trigger.macrodroid.com/44152ed5-575d-4f82-97b1-8ce1f4e9bde5/lock");
          ("INFO", "Webhook response status: 200") ] |}).
Proof. reflexivity. Qed.

(** A dispatch answered with HTTP 500: the message ends in "500". *)
Example block_touch_500 :
  fst (trigger_webhook (env_status 500) "block_touch"
         (Some {[ "duration" := PInt 10 ]}) (initial_world "T")) =
  Returns {[ "success" := PBool false;
             "action" := PStr "block_touch";
             "message" := PStr "Webhook returned HTTP 500";
             "status_code" := PInt 500;
             "timestamp" := PStr "T1" ]}.
Proof. reflexivity. Qed.

(** A dispatch of a key that is not configured. *)
Example nonexistent_key :
  trigger_webhook (env_status 200) "nonexistent_key" None (initial_world "T") =
  (Returns {[ "success" := PBool false;
              "action" := PStr "nonexistent_key";
              "message" := PStr "Unknown action: nonexistent_key";
              "timestamp" := PStr "T0" ]},
   {| system_state := initial_system_state "T";
      clock_reads := 1;
      posts := [];
      log := [ ("ERROR", "Invalid webhook key: nonexistent_key") ] |}).
Proof. reflexivity. Qed.

(** An exception that is both a timeout and a connection error (as
    [requests.exceptions.ConnectTimeout] is) is taken by the first
    handler. *)
Example connect_timeout_first_handler :
  fst (trigger_webhook
         (env_raising {| is_Timeout := true; is_ConnectionError := true;
                         str_e := "Connection timed out" |})
         "open_site1" None (initial_world "T")) =
  Returns {[ "success" := PBool false;
             "action" := PStr "open_site1";
             "message" := PStr "Request timed out. Phone may be unreachable.";
             "timestamp" := PStr "T1" ]}.
Proof. reflexivity. Qed.

Lemma counters_invariant_witness :
  stats_invariant
    (system_state
       (dispatch_all (env_status 200)
          [("lock_screen", None); ("nonexistent_key", None); ("open_site2", None)]
          (initial_world "T"))) ∧
  stats_invariant
    (system_state
       (update_all (env_status 200)
          [("lock_screen", "success", None); ("open_site1", "error", Some "Timeout")]
          (initial_world "T"))).
Proof.
  apply (counters_invariant (env_status 200)
           [("lock_screen", None); ("nonexistent_key", None); ("open_site2", None)]
           [("lock_screen", "success", None); ("open_site1", "error", Some "Timeout")]
           (initial_world "T")); reflexivity.
Defined.

Lemma dispatch_2xx_witness :
  200 ≤ 204 < 300 ∧
  ∃ r w',
    trigger_webhook (env_status 204) "lock_screen" None (initial_world "T") = (Returns r, w') ∧
    r !! "success" = Some (PBool true) ∧
    r !! "message" =
      Some (PStr ("Lock the phone screen immediately" ++ " - Command sent successfully")) ∧
    r !! "status_code" = Some (PInt 204) ∧
    total_requests (system_state w') = total_requests (system_state (initial_world "T")) + 1 ∧
    successful_requests (system_state w') =
      successful_requests (system_state (initial_world "T")) + 1 ∧
    failed_requests (system_state w') = failed_requests (system_state (initial_world "T")) ∧
    last_action_status (system_state w') = Some "success".
Proof.
  split; [lia|].
  apply (dispatch_2xx (env_status 204) "lock_screen"
           {[ "url" := "https://trigger.macrodroid.com/44152ed5-575d-4f82-97b1-8ce1f4e9bde5/lock";
              "description" := "Lock the phone screen immediately" ]}
           "https://trigger.macrodroid.com/44152ed5-575d-4f82-97b1-8ce1f4e9bde5/lock"
           "Lock the phone screen immediately" None (initial_world "T") 204);
    [reflexivity | reflexivity | reflexivity | reflexivity | lia].
Defined.

Lemma dispatch_non2xx_witness :
  ¬ (200 ≤ 500 < 300) ∧
  ∃ r w',
    trigger_webhook (env_status 500) "open_site3" None (initial_world "T") = (Returns r, w') ∧
    r !! "success" = Some (PBool false) ∧
    r !! "message" = Some (PStr ("Webhook returned HTTP " ++ str_int 500)) ∧
    r !! "status_code" = Some (PInt 500) ∧
    total_requests (system_state w') = total_requests (system_state (initial_world "T")) + 1 ∧
    failed_requests (system_state w') = failed_requests (system_state (initial_world "T")) + 1 ∧
    successful_requests (system_state w') =
      successful_requests (system_state (initial_world "T")) ∧
    last_action_status (system_state w') = Some "error".
Proof.
  split; [lia|].
  apply (dispatch_non2xx (env_status 500) "open_site3"
           {[ "url" := "https://trigger.macrodroid.com/44152ed5-575d-4f82-97b1-8ce1f4e9bde5/site3";
              "description" := "Open Site 3 (e.g., Gmail)" ]}
           "https://trigger.macrodroid.com/44152ed5-575d-4f82-97b1-8ce1f4e9bde5/site3"
           None (initial_world "T") 500);
    [reflexivity | reflexivity | reflexivity | lia].
Defined.

Lemma dispatch_unknown_witness :
  WEBHOOK_CONFIG !! "nonexistent_key" = None ∧
  ∃ r w',
    trigger_webhook (env_status 200) "nonexistent_key" None (initial_world "T") =
      (Returns r, w') ∧
    r !! "success" = Some (PBool false) ∧
    r !! "message" = Some (PStr ("Unknown action: " ++ "nonexistent_key")) ∧
    posts w' = posts (initial_world "T") ∧
    system_state w' = system_state (initial_world "T").
Proof.
  split; [reflexivity|].
  apply (dispatch_unknown (env_status 200) "nonexistent_key" None (initial_world "T"));
    reflexivity.
Defined.

Lemma dispatch_timeout_or_unreachable_witness :
  (∃ r w',
     trigger_webhook (env_raising ReadTimeout) "block_touch" None (initial_world "T") =
       (Returns r, w') ∧
     r !! "success" = Some (PBool false) ∧
     r !! "message" = Some (PStr "Request timed out. Phone may be unreachable.") ∧
     error_recorded "block_touch" (initial_world "T") w') ∧
  (∃ r w',
     trigger_webhook (env_raising ConnectionRefused) "block_touch" None (initial_world "T") =
       (Returns r, w') ∧
     r !! "success" = Some (PBool false) ∧
     r !! "message" = Some (PStr "Cannot connect to phone. Check internet connection.") ∧
     error_recorded "block_touch" (initial_world "T") w').
Proof.
  split.
  - apply (dispatch_timeout_or_unreachable (env_raising ReadTimeout) "block_touch"
             {[ "url" := "https://trigger.macrodroid.com/44152ed5-575d-4f82-97b1-8ce1f4e9bde5/block";
                "description" := "Block touch/UI interaction for 10 seconds" ]}
             "https://trigger.macrodroid.com/44152ed5-575d-4f82-97b1-8ce1f4e9bde5/block"
             None (initial_world "T") ReadTimeout); reflexivity.
  - apply (dispatch_timeout_or_unreachable (env_raising ConnectionRefused) "block_touch"
             {[ "url" := "https://trigger.macrodroid.com/44152ed5-575d-4f82-97b1-8ce1f4e9bde5/block";
                "description" := "Block touch/UI interaction for 10 seconds" ]}
             "https://trigger.macrodroid.com/44152ed5-575d-4f82-97b1-8ce1f4e9bde5/block"
             None (initial_world "T") ConnectionRefused); reflexivity.
Defined.

Lemma update_state_effect_witness :
  ∃ w',
    update_state (env_status 200) "lock_screen" "success" None (initial_world "T") =
      (Returns (), w') ∧
    successful_requests (system_state w') = 1 ∧
    failed_requests (system_state w') = 0.
Proof.
  destruct (update_state_effect (env_status 200) "lock_screen" "success" None
              (initial_world "T")) as (w' & Hrun & _ & Hsucc & _).
  exists w'. split; [exact Hrun|]. exact (Hsucc eq_refl).
Defined.

Lemma dispatch_never_raises_witness :
  ∃ r w',
    trigger_webhook (env_raising (ValueError "Invalid URL")) "open_site1" None
      (initial_world "T") = (Returns r, w') ∧
    r !! "success" = Some (PBool false) ∧
    r !! "message" = Some (PStr ("Unexpected error: " ++ "Invalid URL")) ∧
    error_recorded "open_site1" (initial_world "T") w'.
Proof.
  apply (proj2 (dispatch_never_raises (env_raising (ValueError "Invalid URL"))
                  "open_site1" None (initial_world "T"))
           {[ "url" := "https://trigger.macrodroid.com/44152ed5-575d-4f82-97b1-8ce1f4e9bde5/site1";
              "description" := "Open Site 1 (e.g., YouTube)" ]}
           "https://trigger.macrodroid.com/44152ed5-575d-4f82-97b1-8ce1f4e9bde5/site1"
           (ValueError "Invalid URL")); reflexivity.
Defined.

Lemma dispatch_one_post_witness :
  ∃ r w',
    trigger_webhook (env_raising ReadTimeout) "block_touch"
      (Some {[ "duration" := PInt 10 ]}) (initial_world "T") = (Returns r, w') ∧
    posts w' =
      (posts (initial_world "T") ++
       [ {| method := "POST";
            url := "https://trigger.macrodroid.com/44152ed5-575d-4f82-97b1-8ce1f4e9bde5/block";
            json := {[ "duration" := PInt 10 ]};
            timeout := 10;
            headers := {[ "Content-Type" := "application/json" ]} |} ])%list.
Proof.
  apply (dispatch_one_post (env_raising ReadTimeout) "block_touch"
           {[ "url" := "https://trigger.macrodroid.com/44152ed5-575d-4f82-97b1-8ce1f4e9bde5/block";
              "description" := "Block touch/UI interaction for 10 seconds" ]}
           "https://trigger.macrodroid.com/44152ed5-575d-4f82-97b1-8ce1f4e9bde5/block"
           (Some {[ "duration" := PInt 10 ]}) (initial_world "T")); reflexivity.
Defined.

(** * Beyond one dispatch *)

(** ** The world after a dispatch *)

Lemma status_of_relayed k info o r now status :
  relayed k info o r now status → status = "success" ∨ status = "error".
Proof. destruct 1; auto. Qed.

(** What one dispatch does to the world: nothing but a clock read and a
    log record for a key that is not configured; one update, one outbound
    call and two clock reads for a configured key. *)
Lemma trigger_webhook_world env k payload w :
  (WEBHOOK_CONFIG !! k = None ∧
   system_state (trigger_webhook env k payload w).2 = system_state w ∧
   posts (trigger_webhook env k payload w).2 = posts w ∧
   clock_reads (trigger_webhook env k payload w).2 = S (clock_reads w)) ∨
  (∃ info u status,
     WEBHOOK_CONFIG !! k = Some info ∧ info !! "url" = Some u ∧
     (status = "success" ∨ status = "error") ∧
     system_state (trigger_webhook env k payload w).2 =
       recorded k status (clock env (clock_reads w)) (system_state w) ∧
     posts (trigger_webhook env k payload w).2 =
       (posts w ++ [webhook_request u payload])%list ∧
     clock_reads (trigger_webhook env k payload w).2 = S (S (clock_reads w))).
Proof.
  destruct (WEBHOOK_CONFIG !! k) as [info|] eqn:H.
  - right. destruct (config_entries _ _ H) as (u & d & Hu & _).
    destruct (trigger_webhook_known env _ _ _ payload w H Hu)
      as (r & status & lg & Hrel & ->).
    exists info, u, status.
    split; [reflexivity|]. split; [exact Hu|].
    split; [by eapply status_of_relayed|]. by repeat split.
  - left. rewrite (trigger_webhook_unknown env _ payload w H). by repeat split.
Qed.

Lemma configured_true k payload :
  configured (k, payload) = true ↔ is_Some (WEBHOOK_CONFIG !! k).
Proof. unfold configured, contains. simpl. apply bool_decide_eq_true. Qed.

Lemma configured_Some k payload info :
  WEBHOOK_CONFIG !! k = Some info → configured (k, payload) = true.
Proof. intros H. apply configured_true. eauto. Qed.

Lemma configured_None k payload :
  WEBHOOK_CONFIG !! k = None → configured (k, payload) = false.
Proof. intros H. apply (contains_false _ _ H). Qed.

(** ** Counting over a sequence of dispatches *)

Lemma dispatch_all_total env calls w :
  total_requests (system_state (dispatch_all env calls w)) =
    total_requests (system_state w) + Z.of_nat (length (List.filter configured calls)) ∧
  length (posts (dispatch_all env calls w)) =
    (length (posts w) + length (List.filter configured calls))%nat.
Proof.
  revert w. induction calls as [|[k payload] calls IH]; intros w; simpl.
  - split; lia.
  - destruct (IH (trigger_webhook env k payload w).2) as [IHt IHp].
    rewrite IHt, IHp.
    destruct (trigger_webhook_world env k payload w)
      as [(H & -> & -> & _)|(info & u & st & H & _ & _ & -> & -> & _)].
    + rewrite (configured_None _ _ H). split; lia.
    + rewrite (configured_Some _ _ _ H). simpl. rewrite length_app. simpl.
      split; lia.
Qed.

Lemma dispatch_all_monotone env calls w :
  total_requests (system_state w) ≤ total_requests (system_state (dispatch_all env calls w)) ∧
  successful_requests (system_state w) ≤
    successful_requests (system_state (dispatch_all env calls w)) ∧
  failed_requests (system_state w) ≤ failed_requests (system_state (dispatch_all env calls w)).
Proof.
  revert w. induction calls as [|[k payload] calls IH]; intros w; simpl.
  - lia.
  - specialize (IH (trigger_webhook env k payload w).2).
    destruct (trigger_webhook_world env k payload w)
      as [(_ & Hs & _)|(info & u & st & _ & _ & _ & Hs & _)];
      rewrite Hs in IH; [exact IH|].
    simpl in IH. destruct (String.eqb st "success"); lia.
Qed.

Lemma dispatch_all_start_time env calls w :
  backend_start_time (system_state (dispatch_all env calls w)) =
  backend_start_time (system_state w).
Proof.
  revert w. induction calls as [|[k payload] calls IH]; intros w; simpl.
  - reflexivity.
  - rewrite IH.
    destruct (trigger_webhook_world env k payload w)
      as [(_ & -> & _)|(info & u & st & _ & _ & _ & -> & _)]; reflexivity.
Qed.

(** X1.  After any sequence of dispatches, [total_requests] has grown by
    the number of calls that named a configured key, and so has the
    number of outbound calls: calls with an unknown key are not
    counted. *)
Theorem dispatch_all_counts env calls w :
  total_requests (system_state (dispatch_all env calls w)) =
    total_requests (system_state w) + Z.of_nat (length (List.filter configured calls)) ∧
  length (posts (dispatch_all env calls w)) =
    (length (posts w) + length (List.filter configured calls))%nat.
Proof. apply dispatch_all_total. Qed.

(** X2.  When [total_requests] equals the number of outbound calls made
    so far, as it does when the server starts, it still does after any
    sequence of dispatches. *)
Theorem total_requests_counts_posts env calls w :
  total_requests (system_state w) = Z.of_nat (length (posts w)) →
  total_requests (system_state (dispatch_all env calls w)) =
  Z.of_nat (length (posts (dispatch_all env calls w))).
Proof.
  intros H. destruct (dispatch_all_total env calls w) as [-> ->]. lia.
Qed.

(** X3.  No sequence of dispatches makes a counter smaller. *)
Theorem counters_never_decrease env calls w :
  total_requests (system_state w) ≤ total_requests (system_state (dispatch_all env calls w)) ∧
  successful_requests (system_state w) ≤
    successful_requests (system_state (dispatch_all env calls w)) ∧
  failed_requests (system_state w) ≤ failed_requests (system_state (dispatch_all env calls w)).
Proof. apply dispatch_all_monotone. Qed.

Lemma recorded_consistent k info status now s :
  WEBHOOK_CONFIG !! k = Some info →
  status = "success" ∨ status = "error" →
  last_action_consistent s →
  last_action_consistent (recorded k status now s).
Proof.
  intros H Hst Hs. unfold last_action_consistent in *. simpl.
  split; [eauto|]. split; [exact Hst|].
  destruct (last_action s), (last_action_time s), (last_action_status s);
    try done; lia.
Qed.

(** X4.  The fields that describe the last action stay consistent over
    any sequence of dispatches: they are unset together while no request
    was recorded, and otherwise hold a configured key, a time and one of
    the status words 'success' and 'error'. *)
Theorem last_action_stays_consistent env calls w :
  last_action_consistent (system_state w) →
  last_action_consistent (system_state (dispatch_all env calls w)).
Proof.
  revert w. induction calls as [|[k payload] calls IH]; intros w Hw; simpl.
  - exact Hw.
  - apply IH.
    destruct (trigger_webhook_world env k payload w)
      as [(_ & -> & _)|(info & u & st & H & _ & Hst & -> & _)]; [exact Hw|].
    by eapply recorded_consistent.
Qed.

(** X5.  No sequence of dispatches changes [backend_start_time]. *)
Theorem backend_start_time_kept env calls w :
  backend_start_time (system_state (dispatch_all env calls w)) =
  backend_start_time (system_state w).
Proof. apply dispatch_all_start_time. Qed.

(** ** Counting over a sequence of updates *)

Lemma update_all_cons env a st msg updates w :
  update_all env ((a, st, msg) :: updates) w =
  update_all env updates
    {| system_state := recorded a st (clock env (clock_reads w)) (system_state w);
       clock_reads := S (clock_reads w);
       posts := posts w;
       log := log w |}.
Proof. simpl. by rewrite update_state_eq. Qed.

Lemma update_all_closed_form env updates w :
  total_requests (system_state (update_all env updates w)) =
    total_requests (system_state w) + Z.of_nat (length updates) ∧
  successful_requests (system_state (update_all env updates w)) =
    successful_requests (system_state w) +
    Z.of_nat (length (filter (λ u, u.1.2 = "success") updates)) ∧
  failed_requests (system_state (update_all env updates w)) =
    failed_requests (system_state w) +
    Z.of_nat (length (filter (λ u, u.1.2 ≠ "success") updates)).
Proof.
  revert w. induction updates as [|[[a st] msg] updates IH]; intros w.
  - simpl. lia.
  - rewrite update_all_cons.
    destruct (IH {| system_state := recorded a st (clock env (clock_reads w)) (system_state w);
                    clock_reads := S (clock_reads w);
                    posts := posts w;
                    log := log w |}) as (-> & -> & ->).
    rewrite !filter_cons. simpl.
    destruct (String.eqb_spec st "success") as [->|Hne].
    + rewrite decide_True by done. rewrite decide_False by (intros ?; done).
      simpl. lia.
    + rewrite decide_False by done. rewrite decide_True by done.
      simpl. lia.
Qed.

(** X6.  After any sequence of updates, [total_requests] has grown by
    the number of updates, [successful_requests] by the number of those
    with status 'success', and [failed_requests] by the number of the
    others: no update is lost or counted twice. *)
Theorem update_all_counts env updates w :
  total_requests (system_state (update_all env updates w)) =
    total_requests (system_state w) + Z.of_nat (length updates) ∧
  successful_requests (system_state (update_all env updates w)) =
    successful_requests (system_state w) +
    Z.of_nat (length (filter (λ u, u.1.2 = "success") updates)) ∧
  failed_requests (system_state (update_all env updates w)) =
    failed_requests (system_state w) +
    Z.of_nat (length (filter (λ u, u.1.2 ≠ "success") updates)).
Proof. apply update_all_closed_form. Qed.

(** X7.  The three counters do not depend on the order in which the
    updates are made: two sequences that are permutations of each other
    leave the same counters. *)
Theorem update_all_order_irrelevant env updates updates' w :
  updates ≡ₚ updates' →
  total_requests (system_state (update_all env updates w)) =
    total_requests (system_state (update_all env updates' w)) ∧
  successful_requests (system_state (update_all env updates w)) =
    successful_requests (system_state (update_all env updates' w)) ∧
  failed_requests (system_state (update_all env updates w)) =
    failed_requests (system_state (update_all env updates' w)).
Proof.
  intros Hperm.
  destruct (update_all_closed_form env updates w) as (-> & -> & ->).
  destruct (update_all_closed_form env updates' w) as (-> & -> & ->).
  by rewrite Hperm.
Qed.

(** ** Time stamps *)

(** X8.  The time stamp of a result is the last clock read of the
    dispatch; for a configured key it comes after the read that gives
    [last_action_time], so the result is stamped when it is returned,
    not when the request is recorded. *)
Theorem result_timestamp env k payload w :
  ∃ r w',
    trigger_webhook env k payload w = (Returns r, w') ∧
    (clock_reads w < clock_reads w')%nat ∧
    r !! "timestamp" = Some (PStr (clock env (pred (clock_reads w')))) ∧
    (is_Some (WEBHOOK_CONFIG !! k) →
     last_action_time (system_state w') = Some (clock env (clock_reads w)) ∧
     clock_reads w' = S (S (clock_reads w))).
Proof.
  destruct (WEBHOOK_CONFIG !! k) as [info|] eqn:H.
  - destruct (config_entries _ _ H) as (u & d & Hu & _).
    destruct (trigger_webhook_known env _ _ _ payload w H Hu)
      as (r & status & lg & Hrel & ->).
    eexists _, _. split; [reflexivity|]. simpl.
    split; [lia|]. split; [by destruct Hrel|]. by intros _.
  - rewrite (trigger_webhook_unknown env _ payload w H).
    eexists _, _. split; [reflexivity|]. simpl.
    split; [lia|]. split; [reflexivity|]. by intros [? ?].
Qed.

(** ** The status report *)

Lemma get_status_eq env w :
  get_status env w =
  (Returns
     (jsonify
        {[ "online" := PBool true;
           "last_action" := optional_str (last_action (system_state w));
           "last_action_time" := optional_str (last_action_time (system_state w));
           "last_action_status" := optional_str (last_action_status (system_state w));
           "statistics" :=
             PDict [ ("total_requests", PInt (total_requests (system_state w)));
                     ("successful_requests", PInt (successful_requests (system_state w)));
                     ("failed_requests", PInt (failed_requests (system_state w))) ];
           "backend_start_time" := PStr (backend_start_time (system_state w));
           "current_time" := PStr (clock env (clock_reads w)) ]}),
   {| system_state := system_state w;
      clock_reads := S (clock_reads w);
      posts := posts w;
      log := log w |}).
Proof. reflexivity. Qed.

(** X9.  The status report made after any sequence of dispatches since
    the start of the server answers 200 and shows counters [t], [s] and
    [f] with [t = s + f], where [t] is the number of dispatches that named
    a configured key and [s] and [f] are not negative; it shows the start
    time of the server. *)
Theorem status_after_dispatches env calls start :
  ∃ resp w' t s f,
    get_status env (dispatch_all env calls (initial_world start)) = (Returns resp, w') ∧
    response_status resp = 200 ∧
    response_json resp !! "online" = Some (PBool true) ∧
    response_json resp !! "statistics" =
      Some (PDict [ ("total_requests", PInt t);
                    ("successful_requests", PInt s);
                    ("failed_requests", PInt f) ]) ∧
    t = s + f ∧
    t = Z.of_nat (length (List.filter configured calls)) ∧
    0 ≤ s ∧ 0 ≤ f ∧
    response_json resp !! "backend_start_time" = Some (PStr start).
Proof.
  rewrite get_status_eq. eexists _, _, _, _, _.
  split; [reflexivity|]. split; [reflexivity|]. split; [reflexivity|].
  split; [reflexivity|].
  split; [by apply (dispatch_all_invariant env calls (initial_world start))|].
  split; [by destruct (dispatch_all_total env calls (initial_world start)) as [-> _]|].
  destruct (dispatch_all_monotone env calls (initial_world start)) as (_ & Hs & Hf).
  split; [exact Hs|]. split; [exact Hf|].
  simpl. by rewrite dispatch_all_start_time.
Qed.

(** X10.  The status report that follows the dispatch of a configured
    key names that key as the last action, and its status is 'success'
    when the result of the dispatch has [success] true and 'error' when
    it has [success] false. *)
Theorem status_reflects_dispatch env k info payload w :
  WEBHOOK_CONFIG !! k = Some info →
  ∃ r w1 resp w2,
    trigger_webhook env k payload w = (Returns r, w1) ∧
    get_status env w1 = (Returns resp, w2) ∧
    response_json resp !! "last_action" = Some (PStr k) ∧
    (r !! "success" = Some (PBool true) ∧
     response_json resp !! "last_action_status" = Some (PStr "success") ∨
     r !! "success" = Some (PBool false) ∧
     response_json resp !! "last_action_status" = Some (PStr "error")).
Proof.
  intros H. destruct (config_entries _ _ H) as (u & d & Hu & _).
  destruct (trigger_webhook_known env _ _ _ payload w H Hu)
    as (r & status & lg & Hrel & ->).
  eexists _, _, _, _. split; [reflexivity|]. rewrite get_status_eq.
  split; [reflexivity|]. simpl. split; [reflexivity|].
  destruct Hrel; [left | right ..]; split; reflexivity.
Qed.

(** X11.  A status report changes neither the counters nor the other
    fields of [system_state], and makes no outbound call. *)
Theorem get_status_reads_only env w :
  ∃ resp w',
    get_status env w = (Returns resp, w') ∧
    system_state w' = system_state w ∧
    posts w' = posts w.
Proof. rewrite get_status_eq. by eexists _, _. Qed.

(** ** The list of actions *)

Lemma get_actions_eq w :
  get_actions w =
  (Returns
     (jsonify
        {[ "actions" :=
             PList
               [ PDict [("key", PStr "lock_screen");
                        ("description", PStr "Lock the phone screen immediately")];
                 PDict [("key", PStr "block_touch");
                        ("description", PStr "Block touch/UI interaction for 10 seconds")];
                 PDict [("key", PStr "open_site1");
                        ("description", PStr "Open Site 1 (e.g., YouTube)")];
                 PDict [("key", PStr "open_site2");
                        ("description", PStr "Open Site 2 (e.g., Twitter)")];
                 PDict [("key", PStr "open_site3");
                        ("description", PStr "Open Site 3 (e.g., Gmail)")] ];
           "total_count" := PInt 5 ]}),
   w).
Proof. reflexivity. Qed.

(** The keys in the order of the dictionary literal are the keys of
    [WEBHOOK_CONFIG]. *)
Lemma WEBHOOK_CONFIG_keys_spec k :
  k ∈ WEBHOOK_CONFIG_keys ↔ is_Some (WEBHOOK_CONFIG !! k).
Proof.
  unfold WEBHOOK_CONFIG_keys, WEBHOOK_CONFIG. split.
  - rewrite !elem_of_cons, elem_of_nil.
    intros [->|[->|[->|[->|[->|[]]]]]]; by eexists.
  - intros [info H].
    repeat (rewrite lookup_insert in H; case_decide;
            [subst k; rewrite !elem_of_cons; tauto|]).
    rewrite lookup_singleton in H.
    case_decide; [subst k; rewrite !elem_of_cons; tauto|]. done.
Qed.

(** X12.  The list of actions never raises and changes nothing; it
    answers 200 with one entry for each key of [WEBHOOK_CONFIG], and
    [total_count] is the number of entries.  An entry with key [k] and
    description [d] is listed exactly when [k] is configured with the
    description [d]. *)
Theorem get_actions_lists_registry w :
  ∃ resp actions,
    get_actions w = (Returns resp, w) ∧
    response_status resp = 200 ∧
    response_json resp !! "actions" = Some (PList actions) ∧
    response_json resp !! "total_count" = Some (PInt (Z.of_nat (length actions))) ∧
    length actions = size WEBHOOK_CONFIG ∧
    ∀ k d,
      PDict [("key", PStr k); ("description", PStr d)] ∈ actions ↔
      ∃ info, WEBHOOK_CONFIG !! k = Some info ∧ info !! "description" = Some d.
Proof.
  rewrite get_actions_eq. eexists _, _. split; [reflexivity|].
  split; [reflexivity|]. split; [reflexivity|]. split; [reflexivity|].
  split; [reflexivity|]. intros k d. split.
  - rewrite !elem_of_cons, elem_of_nil.
    intros [[= -> ->]|[[= -> ->]|[[= -> ->]|[[= -> ->]|[[= -> ->]|[]]]]]];
      by eexists.
  - intros (info & H & Hd). unfold WEBHOOK_CONFIG in H.
    repeat (rewrite lookup_insert in H; case_decide;
            [subst k; injection H as <-; vm_compute in Hd; injection Hd as <-;
             rewrite !elem_of_cons; tauto|]).
    rewrite lookup_singleton in H.
    case_decide; [|done].
    subst k; injection H as <-; vm_compute in Hd; injection Hd as <-.
    rewrite !elem_of_cons; tauto.
Qed.

(** X13.  A key is among the listed keys exactly when dispatching it
    makes an outbound call. *)
Theorem listed_iff_outbound_call env k payload w :
  k ∈ WEBHOOK_CONFIG_keys ↔
  posts (trigger_webhook env k payload w).2 ≠ posts w.
Proof.
  rewrite WEBHOOK_CONFIG_keys_spec.
  destruct (trigger_webhook_world env k payload w)
    as [(H & _ & -> & _)|(info & u & st & H & _ & _ & _ & -> & _)].
  - rewrite H. split; [by intros [? ?] | done].
  - rewrite H. split; [|by eauto].
    intros _ Heq. apply (f_equal length) in Heq.
    rewrite length_app in Heq. simpl in Heq. lia.
Qed.

(** ** The views of the action routes *)

Lemma or_empty_dict_items v :
  truthy v = false ∨ (∃ items, v = PDict items) →
  or_empty_dict v = PDict match v with PDict items => items | _ => [] end.
Proof.
  unfold or_empty_dict. intros [Hv|[items ->]].
  - rewrite Hv. by destruct v as [| | | | |[|]].
  - by destruct items.
Qed.

Lemma py_get_not_a_dict v key dflt w :
  truthy v = true → (∀ items, v ≠ PDict items) →
  py_get (or_empty_dict v) key dflt w = (Raises (AttributeError v "get"), w).
Proof.
  intros Hv Hne. unfold or_empty_dict. rewrite Hv.
  destruct v; try reflexivity. by destruct (Hne items).
Qed.

(** A view that logs, dispatches a configured key and hands the result
    to [jsonify]. *)
Lemma dispatch_view env label k info u payload w :
  WEBHOOK_CONFIG !! k = Some info →
  info !! "url" = Some u →
  ∃ r status lg,
    relayed k info (remote env (length (posts w)) (webhook_request u payload))
      r (clock env (S (clock_reads w))) status ∧
    (logger "INFO" label ;;
     result ← trigger_webhook env k payload ;
     mret (jsonify result)) w =
    (Returns (jsonify r),
     {| system_state := recorded k status (clock env (clock_reads w)) (system_state w);
        clock_reads := S (S (clock_reads w));
        posts := posts w ++ [webhook_request u payload];
        log := lg |}).
Proof.
  intros H Hu.
  erewrite bind_Returns by reflexivity.
  destruct (trigger_webhook_known env k info u payload
              {| system_state := system_state w;
                 clock_reads := clock_reads w;
                 posts := posts w;
                 log := log w ++ [("INFO", label)] |} H Hu)
    as (r & status & lg & Hrel & Heq).
  exists r, status, lg. split; [exact Hrel|].
  erewrite bind_Returns by exact Heq. reflexivity.
Qed.

Lemma lock_screen_entry :
  ∃ info,
    WEBHOOK_CONFIG !! "lock_screen" = Some info ∧
    info !! "url" =
      Some "https://trigger.macrodroid.com/44152ed5-575d-4f82-97b1-8ce1f4e9bde5/lock".
Proof. eexists. split; reflexivity. Qed.

Lemma block_touch_entry :
  ∃ info,
    WEBHOOK_CONFIG !! "block_touch" = Some info ∧
    info !! "url" =
      Some "https://trigger.macrodroid.com/44152ed5-575d-4f82-97b1-8ce1f4e9bde5/block".
Proof. eexists. split; reflexivity. Qed.

Lemma open_site1_entry :
  ∃ info,
    WEBHOOK_CONFIG !! "open_site1" = Some info ∧
    info !! "url" =
      Some "https://trigger.macrodroid.com/44152ed5-575d-4f82-97b1-8ce1f4e9bde5/site1".
Proof. eexists. split; reflexivity. Qed.

Lemma open_site2_entry :
  ∃ info,
    WEBHOOK_CONFIG !! "open_site2" = Some info ∧
    info !! "url" =
      Some "https://trigger.macrodroid.com/44152ed5-575d-4f82-97b1-8ce1f4e9bde5/site2".
Proof. eexists. split; reflexivity. Qed.

Lemma open_site3_entry :
  ∃ info,
    WEBHOOK_CONFIG !! "open_site3" = Some info ∧
    info !! "url" =
      Some "https://trigger.macrodroid.com/44152ed5-575d-4f82-97b1-8ce1f4e9bde5/site3".
Proof. eexists. split; reflexivity. Qed.

Lemma webhook_request_post_to u payload :
  webhook_request u payload = post_to u (default ∅ payload).
Proof. unfold webhook_request, post_to. by rewrite payload_or_empty_default. Qed.

(** X14.  The view of POST /api/lock never raises and never reads a
    request body: whatever the outbound call does, it answers 200 with a
    result for 'lock_screen', makes one outbound call with an empty JSON
    object to the URL of 'lock_screen', and one request is recorded. *)
Theorem lock_screen_view env w :
  ∃ resp w',
    lock_screen env w = (Returns resp, w') ∧
    response_status resp = 200 ∧
    response_json resp !! "action" = Some (PStr "lock_screen") ∧
    posts w' =
      (posts w ++
       [ post_to "https://trigger.macrodroid.com/44152ed5-575d-4f82-97b1-8ce1f4e9bde5/lock"
           ∅ ])%list ∧
    total_requests (system_state w') = total_requests (system_state w) + 1.
Proof.
  destruct lock_screen_entry as (info & H & Hu).
  destruct (dispatch_view env "Lock screen action requested" _ _ _ None w H Hu)
    as (r & status & lg & Hrel & Heq).
  unfold lock_screen. rewrite Heq. eexists _, _. split; [reflexivity|].
  split; [reflexivity|]. split; [by destruct Hrel|].
  split; [by rewrite webhook_request_post_to | reflexivity].
Qed.

(** X15.  The view of POST /api/block-touch, for a request body that is
    falsy (absent, null, an empty object) or a dictionary: it answers 200
    and makes one outbound call whose JSON body is the object with the
    single key 'duration', holding the value of 'duration' in the request
    body when that key is present (whatever the value, null included) and
    10 when it is not. *)
Theorem block_touch_view env v w :
  truthy v = false ∨ (∃ items, v = PDict items) →
  ∃ resp w',
    block_touch env (Returns v) w = (Returns resp, w') ∧
    response_status resp = 200 ∧
    response_json resp !! "action" = Some (PStr "block_touch") ∧
    posts w' =
      (posts w ++
       [ post_to "https://trigger.macrodroid.com/44152ed5-575d-4f82-97b1-8ce1f4e9bde5/block"
           {[ "duration" :=
                match v with
                | PDict items =>
                    default (PInt 10) ((list_to_map items : gmap string pyval) !! "duration")
                | _ => PInt 10
                end ]} ])%list.
Proof.
  intros Hv. destruct block_touch_entry as (info & H & Hu).
  unfold block_touch.
  erewrite bind_Returns by reflexivity.
  erewrite bind_Returns by reflexivity.
  rewrite (or_empty_dict_items _ Hv).
  erewrite bind_Returns by reflexivity.
  match goal with
  | |- context [trigger_webhook env "block_touch" ?p] =>
      destruct (trigger_webhook_known env _ _ _ p
                  {| system_state := system_state w;
                     clock_reads := clock_reads w;
                     posts := posts w;
                     log := log w ++ [("INFO", "Block touch action requested")] |} H Hu)
        as (r & status & lg & Hrel & Heq)
  end.
  erewrite bind_Returns by exact Heq.
  eexists _, _. split; [reflexivity|]. split; [reflexivity|].
  split; [by destruct Hrel|]. simpl. rewrite webhook_request_post_to. simpl.
  by destruct v.
Qed.

Ltac open_site_proof env entry label :=
  let v := fresh "v" in
  let w := fresh "w" in
  let Hv := fresh "Hv" in
  let info := fresh "info" in
  let H := fresh "H" in
  let Hu := fresh "Hu" in
  intros v w Hv; destruct entry as (info & H & Hu);
  erewrite bind_Returns by reflexivity;
  erewrite bind_Returns by reflexivity;
  rewrite (or_empty_dict_items _ Hv);
  erewrite bind_Returns by reflexivity;
  match goal with
  | |- context [trigger_webhook env ?k ?p] =>
      let r := fresh "r" in
      let status := fresh "status" in
      let lg := fresh "lg" in
      let Hrel := fresh "Hrel" in
      let Heq := fresh "Heq" in
      destruct (trigger_webhook_known env _ _ _ p
                  {| system_state := system_state w;
                     clock_reads := clock_reads w;
                     posts := posts w;
                     log := log w ++ [("INFO", label)] |} H Hu)
        as (r & status & lg & Hrel & Heq);
      erewrite bind_Returns by exact Heq
  end;
  eexists _, _; split; [reflexivity|]; split; [reflexivity|];
  simpl; rewrite webhook_request_post_to;
  destruct v as [| | | | |items]; try reflexivity;
  destruct ((list_to_map items : gmap string pyval) !! "url") as [target|];
    unfold default, from_option, id; [destruct (truthy target)|]; reflexivity.

(** X16.  The views of the three open-site routes, for a request body
    that is falsy or a dictionary: each answers 200 and makes one
    outbound call to the URL of its own key, whose JSON body is the
    object with the single key 'url' when the request body has a truthy
    'url', and the empty object otherwise. *)
Theorem open_site_views env :
  forwards_url env (open_site1 env)
    "https://trigger.macrodroid.com/44152ed5-575d-4f82-97b1-8ce1f4e9bde5/site1" ∧
  forwards_url env (open_site2 env)
    "https://trigger.macrodroid.com/44152ed5-575d-4f82-97b1-8ce1f4e9bde5/site2" ∧
  forwards_url env (open_site3 env)
    "https://trigger.macrodroid.com/44152ed5-575d-4f82-97b1-8ce1f4e9bde5/site3".
Proof.
  split; [|split].
  - unfold forwards_url, open_site1.
    open_site_proof env open_site1_entry "Open Site 1 action requested".
  - unfold forwards_url, open_site2.
    open_site_proof env open_site2_entry "Open Site 2 action requested".
  - unfold forwards_url, open_site3.
    open_site_proof env open_site3_entry "Open Site 3 action requested".
Qed.

(** X17.  A request body that is truthy and not a dictionary (a
    non-empty list or string, a non-zero number, true) makes the views of
    /api/block-touch and of the three open-site routes raise an
    [AttributeError] before anything is dispatched: no outbound call is
    made and [system_state] is left as it was. *)
Theorem non_dict_body_raises env route v w :
  route ∈ [block_touch env; open_site1 env; open_site2 env; open_site3 env] →
  truthy v = true →
  (∀ items, v ≠ PDict items) →
  ∃ w',
    route (Returns v) w = (Raises (AttributeError v "get"), w') ∧
    posts w' = posts w ∧
    system_state w' = system_state w.
Proof.
  rewrite !elem_of_cons, elem_of_nil.
  intros [->|[->|[->|[->|[]]]]] Hv Hne;
    unfold block_touch, open_site1, open_site2, open_site3;
    erewrite bind_Returns by reflexivity;
    erewrite bind_Returns by reflexivity;
    (erewrite bind_Raises by (by apply py_get_not_a_dict));
    by eexists.
Qed.

(** X18.  The view of POST /api/test-webhook/<webhook_key> never raises
    and answers 200 for every key, with a result for that key.  For a key
    that is not configured the status is still 200: the body has
    [success] false and the message "Unknown action: <key>", no outbound
    call is made and [system_state] is left as it was. *)
Theorem test_webhook_view env webhook_key w :
  ∃ resp w',
    test_webhook env webhook_key w = (Returns resp, w') ∧
    response_status resp = 200 ∧
    response_json resp !! "action" = Some (PStr webhook_key) ∧
    (WEBHOOK_CONFIG !! webhook_key = None →
     response_json resp !! "success" = Some (PBool false) ∧
     response_json resp !! "message" = Some (PStr ("Unknown action: " ++ webhook_key)) ∧
     posts w' = posts w ∧
     system_state w' = system_state w).
Proof.
  unfold test_webhook. destruct (WEBHOOK_CONFIG !! webhook_key) as [info|] eqn:H.
  - destruct (config_entries _ _ H) as (u & d & Hu & _).
    destruct (dispatch_view env ("Testing webhook: " ++ webhook_key) _ _ _ None w H Hu)
      as (r & status & lg & Hrel & ->).
    eexists _, _. split; [reflexivity|]. split; [reflexivity|].
    split; [by destruct Hrel | done].
  - erewrite bind_Returns by reflexivity.
    erewrite bind_Returns by (by apply trigger_webhook_unknown).
    eexists _, _. split; [reflexivity|]. by repeat split.
Qed.

(** ** Results and counters *)

Lemma relayed_reports_success k info o r now status :
  relayed k info o r now status →
  reports_success (Returns r) = String.eqb status "success".
Proof. by destruct 1. Qed.

(** X19.  Over any sequence of dispatches, [successful_requests] grows
    by the number of dispatches whose result has [success] true. *)
Theorem successful_requests_counts_successes env calls w :
  successful_requests (system_state (dispatch_all env calls w)) =
  successful_requests (system_state w) +
  Z.of_nat (length (List.filter reports_success (dispatch_results env calls w))).
Proof.
  revert w. induction calls as [|[k payload] calls IH]; intros w; simpl.
  - lia.
  - rewrite IH. destruct (WEBHOOK_CONFIG !! k) as [info|] eqn:H.
    + destruct (config_entries _ _ H) as (u & d & Hu & _).
      destruct (trigger_webhook_known env _ _ _ payload w H Hu)
        as (r & status & lg & Hrel & ->).
      cbn [fst snd system_state]. rewrite (relayed_reports_success _ _ _ _ _ _ Hrel).
      unfold recorded. cbn [successful_requests].
      destruct (String.eqb status "success"); simpl; lia.
    + rewrite (trigger_webhook_unknown env _ payload w H).
      cbn [fst snd system_state].
      match goal with
      | |- context [reports_success ?o] => change (reports_success o) with false
      end.
      simpl. lia.
Qed.

(** ** The properties at concrete inputs *)

(** An explicit null duration is forwarded, not replaced by the
    default. *)
Example block_touch_null_duration :
  posts (block_touch (env_status 200) (Returns (PDict [("duration", PNone)]))
           (initial_world "T")).2 =
  [ post_to "https://trigger.macrodroid.com/44152ed5-575d-4f82-97b1-8ce1f4e9bde5/block"
      {[ "duration" := PNone ]} ].
Proof. reflexivity. Qed.

(** A JSON array as request body. *)
Example block_touch_array_body :
  (block_touch (env_status 200) (Returns (PList [PInt 1])) (initial_world "T")).1 =
  Raises {| is_Timeout := false;
            is_ConnectionError := false;
            str_e := "'list' object has no attribute 'get'" |}.
Proof. reflexivity. Qed.

Lemma total_requests_counts_posts_witness :
  total_requests
    (system_state
       (dispatch_all (env_status 500)
          [("lock_screen", None); ("nonexistent_key", None)] (initial_world "T"))) =
  Z.of_nat
    (length
       (posts
          (dispatch_all (env_status 500)
             [("lock_screen", None); ("nonexistent_key", None)] (initial_world "T")))).
Proof.
  apply (total_requests_counts_posts (env_status 500)
           [("lock_screen", None); ("nonexistent_key", None)] (initial_world "T")).
  reflexivity.
Defined.

Lemma last_action_stays_consistent_witness :
  last_action_consistent
    (system_state
       (dispatch_all (env_raising ReadTimeout)
          [("open_site2", None); ("nonexistent_key", None)] (initial_world "T"))).
Proof.
  apply (last_action_stays_consistent (env_raising ReadTimeout)
           [("open_site2", None); ("nonexistent_key", None)] (initial_world "T")).
  reflexivity.
Defined.

Lemma update_all_order_irrelevant_witness :
  successful_requests
    (system_state
       (update_all (env_status 200)
          [("lock_screen", "success", None); ("open_site1", "error", Some "Timeout")]
          (initial_world "T"))) =
  successful_requests
    (system_state
       (update_all (env_status 200)
          [("open_site1", "error", Some "Timeout"); ("lock_screen", "success", None)]
          (initial_world "T"))).
Proof.
  apply (update_all_order_irrelevant (env_status 200)
           [("lock_screen", "success", None); ("open_site1", "error", Some "Timeout")]
           [("open_site1", "error", Some "Timeout"); ("lock_screen", "success", None)]
           (initial_world "T")).
  apply perm_swap.
Defined.

Lemma result_timestamp_witness :
  ∃ r w',
    trigger_webhook (env_status 200) "lock_screen" None (initial_world "T") = (Returns r, w') ∧
    r !! "timestamp" = Some (PStr (clock (env_status 200) (pred (clock_reads w')))) ∧
    last_action_time (system_state w') = Some (clock (env_status 200) 0) ∧
    clock_reads w' = 2%nat.
Proof.
  destruct (result_timestamp (env_status 200) "lock_screen" None (initial_world "T"))
    as (r & w' & Hrun & _ & Hstamp & Hknown).
  exists r, w'. split; [exact Hrun|]. split; [exact Hstamp|].
  apply Hknown. by eexists.
Defined.

Lemma status_reflects_dispatch_witness :
  ∃ r w1 resp w2,
    trigger_webhook (env_status 404) "open_site3" None (initial_world "T") = (Returns r, w1) ∧
    get_status (env_status 404) w1 = (Returns resp, w2) ∧
    response_json resp !! "last_action" = Some (PStr "open_site3") ∧
    (r !! "success" = Some (PBool true) ∧
     response_json resp !! "last_action_status" = Some (PStr "success") ∨
     r !! "success" = Some (PBool false) ∧
     response_json resp !! "last_action_status" = Some (PStr "error")).
Proof.
  apply (status_reflects_dispatch (env_status 404) "open_site3"
           {[ "url" := "https://trigger.macrodroid.com/44152ed5-575d-4f82-97b1-8ce1f4e9bde5/site3";
              "description" := "Open Site 3 (e.g., Gmail)" ]}
           None (initial_world "T")).
  reflexivity.
Defined.

Lemma block_touch_view_witness :
  ∃ resp w',
    block_touch (env_status 200) (Returns (PDict [("duration", PInt 30)]))
      (initial_world "T") = (Returns resp, w') ∧
    response_status resp = 200 ∧
    response_json resp !! "action" = Some (PStr "block_touch") ∧
    posts w' =
      (posts (initial_world "T") ++
       [ post_to "https://trigger.macrodroid.com/44152ed5-575d-4f82-97b1-8ce1f4e9bde5/block"
           {[ "duration" :=
                default (PInt 10)
                  ((list_to_map [("duration", PInt 30)] : gmap string pyval) !! "duration") ]} ])%list.
Proof.
  apply (block_touch_view (env_status 200) (PDict [("duration", PInt 30)])
           (initial_world "T")).
  right. by eexists.
Defined.

Lemma open_site_views_witness :
  ∃ resp w',
    open_site1 (env_status 200) (Returns (PDict [("url", PStr "https://youtube.com")]))
      (initial_world "T") = (Returns resp, w') ∧
    response_status resp = 200 ∧
    posts w' =
      (posts (initial_world "T") ++
       [ post_to "https://trigger.macrodroid.com/44152ed5-575d-4f82-97b1-8ce1f4e9bde5/site1"
           match (list_to_map [("url", PStr "https://youtube.com")] : gmap string pyval)
                   !! "url" with
           | Some target => if truthy target then {[ "url" := target ]} else ∅
           | None => ∅
           end ])%list.
Proof.
  apply (proj1 (open_site_views (env_status 200))
           (PDict [("url", PStr "https://youtube.com")]) (initial_world "T")).
  right. by eexists.
Defined.

Lemma non_dict_body_raises_witness :
  ∃ w',
    block_touch (env_status 200) (Returns (PList [PInt 1])) (initial_world "T") =
      (Raises (AttributeError (PList [PInt 1]) "get"), w') ∧
    posts w' = posts (initial_world "T") ∧
    system_state w' = system_state (initial_world "T").
Proof.
  apply (non_dict_body_raises (env_status 200) (block_touch (env_status 200))
           (PList [PInt 1]) (initial_world "T")).
  - apply elem_of_cons. by left.
  - reflexivity.
  - intros items. discriminate.
Defined.

Lemma test_webhook_view_witness :
  ∃ resp w',
    test_webhook (env_status 200) "nonexistent_key" (initial_world "T") = (Returns resp, w') ∧
    response_status resp = 200 ∧
    response_json resp !! "success" = Some (PBool false) ∧
    posts w' = posts (initial_world "T").
Proof.
  destruct (test_webhook_view (env_status 200) "nonexistent_key" (initial_world "T"))
    as (resp & w' & Hrun & Hstatus & _ & Hunknown).
  exists resp, w'. split; [exact Hrun|]. split; [exact Hstatus|].
  destruct (Hunknown eq_refl) as (Hs & _ & Hp & _). by split.
Defined.
